(** * Xiaomi air fryer MIoT client: status decoder and command encoder

    A shallow embedding of [custom_components/xiaomi_airfryer/fryer_miot.py]:
    the enumerations, the [FryerStatusMiot] property getters and the
    [FryerMiot] commands, with Python exceptions, the module logger and the
    calls into the transport made explicit. *)

From Stdlib Require Import ZArith DecimalString.
From stdpp Require Import gmap strings list.

Local Open Scope Z_scope.
Local Open Scope string_scope.

(** ** Python values and exceptions *)

(** The raw scalars a MIoT property carries: [None], booleans, integers and
    strings. *)
Inductive PyVal : Type :=
  | PNone
  | PBool (b : bool)
  | PInt (z : Z)
  | PStr (s : string).

(** The integer a value compares as: [True == 1] and [False == 0]. *)
Definition as_int (v : PyVal) : option Z :=
  match v with
  | PBool b => Some (Z.b2z b)
  | PInt z => Some z
  | _ => None
  end.

(** Python's [==] on these scalars. *)
Definition py_eq (a b : PyVal) : bool :=
  match a, b with
  | PNone, PNone => true
  | PStr s, PStr t => String.eqb s t
  | _, _ =>
      match as_int a, as_int b with
      | Some x, Some y => Z.eqb x y
      | _, _ => false
      end
  end.

(** [x in xs] for a list literal. *)
Definition py_in (x : PyVal) (xs : list PyVal) : bool :=
  existsb (fun y => py_eq x y) xs.

(** [str(x)]. *)
Definition py_str (v : PyVal) : string :=
  match v with
  | PNone => "None"
  | PBool true => "True"
  | PBool false => "False"
  | PInt z => NilZero.string_of_int (Z.to_int z)
  | PStr s => s
  end.

(** [sep.join(parts)]. *)
Definition py_join (sep : string) (parts : list string) : string :=
  String.concat sep parts.

Inductive exn : Type :=
  | KeyError (key : string)
  | ValueError (v : PyVal) (cls : string)
  | DeviceException (msg : string).

Inductive result (A : Type) : Type :=
  | Ok (a : A)
  | Raise (e : exn).
Arguments Ok {A} a.
Arguments Raise {A} e.

Definition is_ok {A} (r : result A) : bool :=
  match r with Ok _ => true | Raise _ => false end.

(** ** The world outside a call: logger records and transport requests *)

(** One [_LOGGER.error(fmt, arg)] record. *)
Record LogRecord : Type := { fmt : string; arg : PyVal }.

(** What the client asks of the [MiotDevice] base class. *)
Inductive request : Type :=
  | GetProperties
  | SetProperty (name : string) (v : PyVal)
  | CallAction (name : string) (params : option PyVal).

Record World : Type := { log : list LogRecord; wire : list request }.

Definition emit (w : World) (ds : list LogRecord) : World :=
  {| log := log w ++ ds; wire := wire w |}.

Definition sent (w : World) (rq : request) : World :=
  {| log := log w; wire := wire w ++ [rq] |}.

(** Computations that read and extend the world and may raise. *)
Definition M (A : Type) : Type := World -> result A * World.

Definition ret {A} (a : A) : M A := fun w => (Ok a, w).

Definition bind {A B} (m : M A) (k : A -> M B) : M B :=
  fun w =>
    match m w with
    | (Ok a, w') => k a w'
    | (Raise e, w') => (Raise e, w')
    end.

Notation "'let*' x ':=' m 'in' k" := (bind m (fun x => k))
  (at level 10, x name, m at level 100, k at level 200).

Definition lift {A} (r : result A) : M A := fun w => (r, w).

Definition raise {A} (e : exn) : M A := lift (Raise e).

(** [try: body  except ValueError: handler]. *)
Definition try_except_ValueError {A} (body handler : M A) : M A :=
  fun w =>
    match body w with
    | (Raise (ValueError _ _), w') => handler w'
    | r => r
    end.

(** [_LOGGER.error(fmt, arg)]. *)
Definition log_error (f : string) (a : PyVal) : M unit :=
  fun w => (Ok tt, emit w [{| fmt := f; arg := a |}]).

(** Runs [m] and hands back how it ended instead of raising. *)
Definition attempt {A} (m : M A) : M (result A) :=
  fun w => let '(r, w') := m w in (Ok r, w').

(** ** Enumerations *)

(** An [enum.Enum] subclass: its members in definition order, each with a
    name and a value. *)
Class PyEnum (E V : Type) : Type := {
  cls_name : string;
  members : list E;
  name_of : E -> string;
  value_of : E -> V
}.
Arguments cls_name E {V _}.
Arguments members E {V _}.

(** [E(v)]: the member whose value equals [v], else [ValueError]. *)
Definition enum_call (E : Type) `{PyEnum E PyVal} (v : PyVal) : result E :=
  match find (fun m => py_eq (value_of m) v) (members E) with
  | Some m => Ok m
  | None => Raise (ValueError v (cls_name E))
  end.

(** [E[n]]: the member named [n], else [KeyError]. *)
Definition enum_getitem (E : Type) {V} `{PyEnum E V} (n : string) : result E :=
  match find (fun m => String.eqb (name_of m) n) (members E) with
  | Some m => Ok m
  | None => Raise (KeyError n)
  end.

Module Status.
Inductive t : Type :=
  | Unknown | Shutdown | Standby | Pause | Appointment | Cooking | Preheat
  | Cooked | PreheatFinish | PreheatPause | Pause2 | Keepwarm
  | KeepwarmPause | KeepwarmFinish | CrispyRoast | Degrease.

Definition all : list t :=
  [Unknown; Shutdown; Standby; Pause; Appointment; Cooking; Preheat;
   Cooked; PreheatFinish; PreheatPause; Pause2; Keepwarm;
   KeepwarmPause; KeepwarmFinish; CrispyRoast; Degrease].

Definition name (s : t) : string :=
  match s with
  | Unknown => "Unknown" | Shutdown => "Shutdown" | Standby => "Standby"
  | Pause => "Pause" | Appointment => "Appointment" | Cooking => "Cooking"
  | Preheat => "Preheat" | Cooked => "Cooked"
  | PreheatFinish => "PreheatFinish" | PreheatPause => "PreheatPause"
  | Pause2 => "Pause2" | Keepwarm => "Keepwarm"
  | KeepwarmPause => "KeepwarmPause" | KeepwarmFinish => "KeepwarmFinish"
  | CrispyRoast => "CrispyRoast" | Degrease => "Degrease"
  end.

Definition value (s : t) : PyVal :=
  PInt match s with
       | Unknown => -1 | Shutdown => 0 | Standby => 1 | Pause => 2
       | Appointment => 3 | Cooking => 4 | Preheat => 5 | Cooked => 6
       | PreheatFinish => 7 | PreheatPause => 8 | Pause2 => 9
       | Keepwarm => 10 | KeepwarmPause => 11 | KeepwarmFinish => 12
       | CrispyRoast => 13 | Degrease => 14
       end.
End Status.

#[export] Instance Status_enum : PyEnum Status.t PyVal :=
  {| cls_name := "Status"; members := Status.all;
     name_of := Status.name; value_of := Status.value |}.

Module DeviceFault.
Inductive t : Type := Unknown | NoFaults | E1 | E2 | E3.

Definition all : list t := [Unknown; NoFaults; E1; E2; E3].

Definition name (s : t) : string :=
  match s with
  | Unknown => "Unknown" | NoFaults => "NoFaults"
  | E1 => "E1" | E2 => "E2" | E3 => "E3"
  end.

Definition value (s : t) : PyVal :=
  PInt match s with
       | Unknown => -1 | NoFaults => 0 | E1 => 1 | E2 => 2 | E3 => 3
       end.
End DeviceFault.

#[export] Instance DeviceFault_enum : PyEnum DeviceFault.t PyVal :=
  {| cls_name := "DeviceFault"; members := DeviceFault.all;
     name_of := DeviceFault.name; value_of := DeviceFault.value |}.

Module FoodQuanty.
Inductive t : Type := Unknown | Null | Single | Double | Half | Full.

Definition all : list t := [Unknown; Null; Single; Double; Half; Full].

Definition name (s : t) : string :=
  match s with
  | Unknown => "Unknown" | Null => "Null" | Single => "Single"
  | Double => "Double" | Half => "Half" | Full => "Full"
  end.

Definition value (s : t) : PyVal :=
  PInt match s with
       | Unknown => -1 | Null => 0 | Single => 1 | Double => 2
       | Half => 3 | Full => 4
       end.
End FoodQuanty.

#[export] Instance FoodQuanty_enum : PyEnum FoodQuanty.t PyVal :=
  {| cls_name := "FoodQuanty"; members := FoodQuanty.all;
     name_of := FoodQuanty.name; value_of := FoodQuanty.value |}.

Module TurnPot.
Inductive t : Type := Unknown | NotTurnPot | SwitchOff | TurnPot.

Definition all : list t := [Unknown; NotTurnPot; SwitchOff; TurnPot].

Definition name (s : t) : string :=
  match s with
  | Unknown => "Unknown" | NotTurnPot => "NotTurnPot"
  | SwitchOff => "SwitchOff" | TurnPot => "TurnPot"
  end.

Definition value (s : t) : PyVal :=
  PInt match s with
       | Unknown => -1 | NotTurnPot => 0 | SwitchOff => 1 | TurnPot => 2
       end.
End TurnPot.

#[export] Instance TurnPot_enum : PyEnum TurnPot.t PyVal :=
  {| cls_name := "TurnPot"; members := TurnPot.all;
     name_of := TurnPot.name; value_of := TurnPot.value |}.

Module PreheatSwitch.
Inductive t : Type := Unknown | Null | Off | On.

Definition all : list t := [Unknown; Null; Off; On].

Definition name (s : t) : string :=
  match s with
  | Unknown => "Unknown" | Null => "Null" | Off => "Off" | On => "On"
  end.

Definition value (s : t) : PyVal :=
  PInt match s with
       | Unknown => -1 | Null => 0 | Off => 1 | On => 2
       end.
End PreheatSwitch.

#[export] Instance PreheatSwitch_enum : PyEnum PreheatSwitch.t PyVal :=
  {| cls_name := "PreheatSwitch"; members := PreheatSwitch.all;
     name_of := PreheatSwitch.name; value_of := PreheatSwitch.value |}.

(** The eight presets; [RecipeId], [RecipeToCommand] and [RecipeName] are
    three enumerations over the same member names. *)
Inductive Recipe : Type :=
  | Manual | FrenchFries | ChickenWing | SweetPotato
  | Cake | Defrost | DriedFruit | Yogurt.

Definition Recipe_name (r : Recipe) : string :=
  match r with
  | Manual => "Manual" | FrenchFries => "FrenchFries"
  | ChickenWing => "ChickenWing" | SweetPotato => "SweetPotato"
  | Cake => "Cake" | Defrost => "Defrost"
  | DriedFruit => "DriedFruit" | Yogurt => "Yogurt"
  end.

Module RecipeId.
Record t : Type := member { recipe : Recipe }.

Definition all : list t :=
  map member
    [Manual; FrenchFries; ChickenWing; SweetPotato;
     Cake; Defrost; DriedFruit; Yogurt].

Definition value (m : t) : PyVal :=
  PStr match recipe m with
       | Manual => "M0" | FrenchFries => "M1" | ChickenWing => "M2"
       | SweetPotato => "M3" | Cake => "M4" | Defrost => "M5"
       | DriedFruit => "M6" | Yogurt => "M7"
       end.
End RecipeId.

#[export] Instance RecipeId_enum : PyEnum RecipeId.t PyVal :=
  {| cls_name := "RecipeId"; members := RecipeId.all;
     name_of := fun m => Recipe_name (RecipeId.recipe m);
     value_of := RecipeId.value |}.

Module RecipeToCommand.
Record t : Type := member { recipe : Recipe }.

Definition all : list t :=
  map member
    [Manual; FrenchFries; ChickenWing; SweetPotato;
     Cake; Defrost; DriedFruit; Yogurt].

(** [recipeId, name, targetTime, targetTemperature, appointTime,
    foodQuantity, preheat]. *)
Definition value (m : t) : list PyVal :=
  match recipe m with
  | Manual => [PStr "M0"; PStr ""; PInt 0; PInt 0; PInt 0; PInt 0; PInt 0]
  | FrenchFries => [PStr "M1"; PStr ""; PInt 15; PInt 200; PInt 0; PInt 3; PInt 0]
  | ChickenWing => [PStr "M2"; PStr ""; PInt 15; PInt 180; PInt 0; PInt 1; PInt 0]
  | SweetPotato => [PStr "M3"; PStr ""; PInt 30; PInt 200; PInt 0; PInt 1; PInt 0]
  | Cake => [PStr "M4"; PStr ""; PInt 30; PInt 160; PInt 0; PInt 0; PInt 0]
  | Defrost => [PStr "M5"; PStr ""; PInt 15; PInt 40; PInt 0; PInt 0; PInt 0]
  | DriedFruit => [PStr "M6"; PStr ""; PInt 240; PInt 40; PInt 0; PInt 0; PInt 0]
  | Yogurt => [PStr "M7"; PStr ""; PInt 480; PInt 40; PInt 0; PInt 0; PInt 0]
  end.
End RecipeToCommand.

#[export] Instance RecipeToCommand_enum : PyEnum RecipeToCommand.t (list PyVal) :=
  {| cls_name := "RecipeToCommand"; members := RecipeToCommand.all;
     name_of := fun m => Recipe_name (RecipeToCommand.recipe m);
     value_of := RecipeToCommand.value |}.

Module RecipeName.
Record t : Type := member { recipe : Recipe }.

(** Definition order of the source: Cake comes last here. *)
Definition all : list t :=
  map member
    [Manual; FrenchFries; ChickenWing; SweetPotato;
     Defrost; DriedFruit; Yogurt; Cake].

Definition value (m : t) : PyVal :=
  PStr match recipe m with
       | Manual => "Ручной"
       | FrenchFries => "Картофель Фри"
       | ChickenWing => "Куриные Крылья"
       | SweetPotato => "Сладкий картофель"
       | Defrost => "Разморозка"
       | DriedFruit => "Сухофрукты"
       | Yogurt => "Йогурт"
       | Cake => "Торт"
       end.
End RecipeName.

#[export] Instance RecipeName_enum : PyEnum RecipeName.t PyVal :=
  {| cls_name := "RecipeName"; members := RecipeName.all;
     name_of := fun m => Recipe_name (RecipeName.recipe m);
     value_of := RecipeName.value |}.

(** ** The status container *)

Module FryerStatusMiot.

(** [FryerStatusMiot(data)] keeps the dictionary it is given. *)
Record t : Type := new { data : gmap string PyVal }.

(** [self.data[key]]. *)
Definition getitem (self : t) (key : string) : M PyVal :=
  lift match data self !! key with
       | Some v => Ok v
       | None => Raise (KeyError key)
       end.

Definition is_on (self : t) : M bool :=
  let* v := getitem self "status" in
  ret (negb (py_in v [PInt 0; PInt 1; PInt 6; PInt 9])).

(** [self.data.get("mode")]. *)
Definition mode (self : t) : M PyVal :=
  ret (default PNone (data self !! "mode")).

Definition status (self : t) : M PyVal :=
  try_except_ValueError
    (let* v := getitem self "status" in
     let* m := lift (enum_call Status.t v) in
     ret (value_of m))
    (let* v := getitem self "status" in
     let* _ := log_error "Unknown Status (%s)" v in
     ret (value_of Status.Unknown)).

Definition device_fault (self : t) : M PyVal :=
  try_except_ValueError
    (let* v := getitem self "device_fault" in
     let* m := lift (enum_call DeviceFault.t v) in
     ret (value_of m))
    (let* v := getitem self "device_fault" in
     let* _ := log_error "Unknown Device Fault (%s)" v in
     ret (value_of DeviceFault.Unknown)).

Definition target_time (self : t) : M PyVal := getitem self "target_time".

Definition target_temperature (self : t) : M PyVal :=
  getitem self "target_temperature".

Definition left_time (self : t) : M PyVal := getitem self "left_time".

Definition recipe_id (self : t) : M PyVal := getitem self "recipe_id".

(** [RecipeName(RecipeId(self.data["recipe_id"]).name).value]: both
    enumerations are called, that is, looked up by value. *)
Definition recipe_name (self : t) : M PyVal :=
  let* v := getitem self "recipe_id" in
  let* rid := lift (enum_call RecipeId.t v) in
  let* rn := lift (enum_call RecipeName.t (PStr (name_of rid))) in
  ret (value_of rn).

Definition appoint_time (self : t) : M PyVal := getitem self "appoint_time".

Definition food_quanty (self : t) : M FoodQuanty.t :=
  try_except_ValueError
    (let* v := getitem self "food_quanty" in
     lift (enum_call FoodQuanty.t v))
    (let* v := getitem self "food_quanty" in
     let* _ := log_error "Unknown FoodQuanty (%s)" v in
     ret FoodQuanty.Single).

Definition preheat_switch (self : t) : M PyVal :=
  try_except_ValueError
    (let* v := getitem self "preheat_switch" in
     let* m := lift (enum_call PreheatSwitch.t v) in
     ret (value_of m))
    (let* v := getitem self "preheat_switch" in
     let* _ := log_error "Unknown PreheatSwitch (%s)" v in
     ret (value_of PreheatSwitch.Unknown)).

Definition appoint_time_left (self : t) : M PyVal :=
  getitem self "appoint_time_left".

Definition turn_pot (self : t) : M TurnPot.t :=
  try_except_ValueError
    (let* v := getitem self "turn_pot" in
     lift (enum_call TurnPot.t v))
    (let* v := getitem self "turn_pot" in
     let* _ := log_error "Unknown TurnPot (%s)" v in
     ret TurnPot.Unknown).

(** Every property of the container read once, in the order the class
    declares them; a property that raises is recorded as such. *)
Record Fields : Type := {
  f_is_on : result bool;
  f_mode : result PyVal;
  f_status : result PyVal;
  f_device_fault : result PyVal;
  f_target_time : result PyVal;
  f_target_temperature : result PyVal;
  f_left_time : result PyVal;
  f_recipe_id : result PyVal;
  f_recipe_name : result PyVal;
  f_appoint_time : result PyVal;
  f_food_quanty : result FoodQuanty.t;
  f_preheat_switch : result PyVal;
  f_appoint_time_left : result PyVal;
  f_turn_pot : result TurnPot.t
}.

Definition read_all (self : t) : M Fields :=
  let* a := attempt (is_on self) in
  let* b := attempt (mode self) in
  let* c := attempt (status self) in
  let* d := attempt (device_fault self) in
  let* e := attempt (target_time self) in
  let* f := attempt (target_temperature self) in
  let* g := attempt (left_time self) in
  let* h := attempt (recipe_id self) in
  let* i := attempt (recipe_name self) in
  let* j := attempt (appoint_time self) in
  let* k := attempt (food_quanty self) in
  let* l := attempt (preheat_switch self) in
  let* m := attempt (appoint_time_left self) in
  let* n := attempt (turn_pot self) in
  ret {| f_is_on := a; f_mode := b; f_status := c; f_device_fault := d;
         f_target_time := e; f_target_temperature := f; f_left_time := g;
         f_recipe_id := h; f_recipe_name := i; f_appoint_time := j;
         f_food_quanty := k; f_preheat_switch := l;
         f_appoint_time_left := m; f_turn_pot := n |}.

End FryerStatusMiot.

(** ** The device client *)

(** One record of a batched read, as [get_properties_for_mapping] returns
    it: the property it answers for, a status code, and the value, which
    the device leaves out when the read failed. *)
Record RawProp : Type := { did : string; code : Z; value : option PyVal }.

Module FryerMiot.

(** [prop["value"] if prop["code"] == 0 else None]. *)
Definition stored_value (prop : RawProp) : result PyVal :=
  if Z.eqb (code prop) 0 then
    match value prop with
    | Some v => Ok v
    | None => Raise (KeyError "value")
    end
  else Ok PNone.

(** The dictionary comprehension of [status]: records are taken in order
    and a later record for the same [did] replaces an earlier one. *)
Fixpoint status_data (props : list RawProp) (acc : gmap string PyVal)
  : result (gmap string PyVal) :=
  match props with
  | [] => Ok acc
  | prop :: rest =>
      match stored_value prop with
      | Ok v => status_data rest (<[did prop := v]> acc)
      | Raise e => Raise e
      end
  end.

Section MiotDevice.

(** The inherited [MiotDevice] methods belong to python-miio: what the
    device answers is a parameter, and may depend on the requests made so
    far. *)
Variable Reply : Type.
Variable read_reply : list request -> result (list RawProp).
Variable send_reply : list request -> request -> result Reply.

Definition get_properties_for_mapping : M (list RawProp) :=
  fun w => (read_reply (wire w), sent w GetProperties).

Definition set_property (name : string) (v : PyVal) : M Reply :=
  fun w => (send_reply (wire w) (SetProperty name v),
            sent w (SetProperty name v)).

Definition call_action (name : string) (params : option PyVal) : M Reply :=
  fun w => (send_reply (wire w) (CallAction name params),
            sent w (CallAction name params)).

Definition status : M FryerStatusMiot.t :=
  let* props := get_properties_for_mapping in
  let* d := lift (status_data props ∅) in
  ret (FryerStatusMiot.new d).

Definition appoint_time (hours : Z) : M Reply :=
  if Z.ltb hours 0 || Z.gtb hours (24 * 60) then
    raise (DeviceException
             ("Invalid value for a appoint time: " ++ py_str (PInt hours)))
  else set_property "appoint_time" (PInt hours).

Definition recipe_id (recipe_id : string) : M Reply :=
  set_property "recipe_id" (PStr recipe_id).

Definition food_quanty (food_quanty : Z) : M Reply :=
  if Z.ltb food_quanty 0 || Z.gtb food_quanty 5 then
    raise (DeviceException
             ("Invalid value for food_quanty: " ++ py_str (PInt food_quanty)))
  else set_property "food_quanty" (PInt food_quanty).

Definition target_time (target_time : Z) : M Reply :=
  if Z.ltb target_time 1 || Z.gtb target_time 1440 then
    raise (DeviceException
             ("Invalid value for target_time: " ++ py_str (PInt target_time)))
  else set_property "target_time" (PInt target_time).

Definition target_temperature (target_temperature : Z) : M Reply :=
  if Z.ltb target_temperature 40 || Z.gtb target_temperature 200 then
    raise (DeviceException
             ("Invalid value for target_temperature: "
              ++ py_str (PInt target_temperature)))
  else set_property "target_temperature" (PInt target_temperature).

Definition start_cook : M Reply := call_action "start_cook" None.

Definition cancel_cooking : M Reply := call_action "cancel_cooking" None.

Definition pause : M Reply := call_action "pause" None.

Definition start_custom_cook (mode : PyVal) : M Reply :=
  let* recipe_id := lift (enum_call RecipeId.t mode) in
  let* preset := lift (enum_getitem RecipeToCommand.t (name_of recipe_id)) in
  let command := value_of preset in
  let mode_command := py_join "," (map py_str command) in
  call_action "start_custom_cook" (Some (PStr mode_command)).

Definition resume_cooking : M Reply := call_action "resume_cooking" None.

End MiotDevice.

(** Decoding a given batch: the container [status] builds from it, with
    every property read. *)
Definition decode (props : list RawProp) : M FryerStatusMiot.Fields :=
  let* d := lift (status_data props ∅) in
  FryerStatusMiot.read_all (FryerStatusMiot.new d).

End FryerMiot.

(** ** Sample inputs *)

Definition w0 : World := {| log := []; wire := [] |}.

Definition snapshot_of (kvs : list (string * PyVal)) : FryerStatusMiot.t :=
  FryerStatusMiot.new (list_to_map kvs).

(** ** Batches *)

(** The record of a batch that counts for a property: the last one that
    names it, which is the one the dictionary keeps. *)
Fixpoint came_back (name : string) (props : list RawProp) : option RawProp :=
  match props with
  | [] => None
  | prop :: rest =>
      match came_back name rest with
      | Some q => Some q
      | None => if String.eqb (did prop) name then Some prop else None
      end
  end.

(** Every record that reports success carries a value. *)
Definition complete (props : list RawProp) : Prop :=
  Forall (fun q => code q = 0 -> value q <> None) props.

(** A read of four properties: the device fault failed (code -4001, no
    value), the others came back. *)
Definition batch_fault_failed : list RawProp :=
  [ {| did := "status"; code := 0; value := Some (PInt 4) |};
    {| did := "device_fault"; code := -4001; value := None |};
    {| did := "target_time"; code := 0; value := Some (PInt 15) |};
    {| did := "recipe_id"; code := 0; value := Some (PStr "M1") |} ].

(** The same read with the device fault record left out altogether. *)
Definition batch_fault_missing : list RawProp :=
  [ {| did := "status"; code := 0; value := Some (PInt 4) |};
    {| did := "target_time"; code := 0; value := Some (PInt 15) |};
    {| did := "recipe_id"; code := 0; value := Some (PStr "M1") |} ].

(** A read in which the status itself failed. *)
Definition batch_status_failed : list RawProp :=
  [ {| did := "status"; code := -4004; value := None |};
    {| did := "target_time"; code := 0; value := Some (PInt 15) |} ].

(** A read that answers for the target time only. *)
Definition batch_no_status : list RawProp :=
  [ {| did := "target_time"; code := 0; value := Some (PInt 15) |} ].

(** The batch returned [v] for the property [name]: the record that counts
    for it reports success and carries [v]. *)
Definition returned (name : string) (v : PyVal) (props : list RawProp) : Prop :=
  exists q, came_back name props = Some q /\ code q = 0 /\ value q = Some v.

(** A computation whose outcome and diagnostics are fixed in advance: it
    reads nothing of the world and only appends to its log. *)
Definition stateless {A} (m : M A) : Prop :=
  exists (r : result A) (ds : list LogRecord), forall w, m w = (r, emit w ds).

(** What a validated command amounts to: the one request goes out and the
    device's answer is handed back as it is. *)
Definition submitted {Reply : Type}
    (send_reply : list request -> request -> result Reply)
    (w : World) (rq : request) : result Reply * World :=
  (send_reply (wire w) rq, sent w rq).

(** A device that acknowledges every request. *)
Definition ack (_ : list request) (_ : request) : result unit := Ok tt.

(** ** The preset table as the specification gives it *)

(** A preset as the specification's table lists it: the token and the five
    numbers; the display name is not part of what is sent. *)
Record Preset : Type := {
  preset_id : string;
  targetTime : Z;
  targetTemperature : Z;
  appointTime : Z;
  foodQuantity : Z;
  preheatFlag : Z
}.

Definition spec_preset_table : list Preset :=
  [ {| preset_id := "M0"; targetTime := 0; targetTemperature := 0;
       appointTime := 0; foodQuantity := 0; preheatFlag := 0 |};
    {| preset_id := "M1"; targetTime := 15; targetTemperature := 200;
       appointTime := 0; foodQuantity := 3; preheatFlag := 0 |};
    {| preset_id := "M2"; targetTime := 15; targetTemperature := 180;
       appointTime := 0; foodQuantity := 1; preheatFlag := 0 |};
    {| preset_id := "M3"; targetTime := 30; targetTemperature := 200;
       appointTime := 0; foodQuantity := 1; preheatFlag := 0 |};
    {| preset_id := "M4"; targetTime := 30; targetTemperature := 160;
       appointTime := 0; foodQuantity := 0; preheatFlag := 0 |};
    {| preset_id := "M5"; targetTime := 15; targetTemperature := 40;
       appointTime := 0; foodQuantity := 0; preheatFlag := 0 |};
    {| preset_id := "M6"; targetTime := 240; targetTemperature := 40;
       appointTime := 0; foodQuantity := 0; preheatFlag := 0 |};
    {| preset_id := "M7"; targetTime := 480; targetTemperature := 40;
       appointTime := 0; foodQuantity := 0; preheatFlag := 0 |} ].

Definition spec_resolve (token : string) : option Preset :=
  find (fun p => String.eqb (preset_id p) token) spec_preset_table.

(** The seven fields in the order id, name, targetTime, targetTemperature,
    appointTime, foodQuantity, preheatFlag, the name left empty. *)
Definition spec_serialize (p : Preset) : string :=
  py_join ","
    [preset_id p; ""; py_str (PInt (targetTime p));
     py_str (PInt (targetTemperature p)); py_str (PInt (appointTime p));
     py_str (PInt (foodQuantity p)); py_str (PInt (preheatFlag p))].

(** ** The mapping table *)

(** Where a name lives on the device: a property ([siid], [piid]) or an
    action ([siid], [aiid]). *)
Inductive address : Type :=
  | property (siid piid : Z)
  | action (siid aiid : Z).

#[export] Instance address_eq_dec : EqDecision address.
Proof. solve_decision. Defined.

Definition MIOT_MAPPING : list (string * address) :=
  [ ("status", property 2 1);
    ("device_fault", property 2 2);
    ("target_time", property 2 3);
    ("target_temperature", property 2 4);
    ("left_time", property 2 5);
    ("recipe_id", property 3 1);
    ("recipe_name", property 3 2);
    ("appoint_time", property 3 5);
    ("food_quanty", property 3 6);
    ("preheat_switch", property 3 7);
    ("appoint_time_left", property 3 8);
    ("recipe_sync", property 3 9);
    ("turn_pot", property 3 10);
    ("start_cook", action 2 1);
    ("cancel_cooking", action 2 2);
    ("pause", action 2 3);
    ("start_custom_cook", action 3 1);
    ("resume_cooking", action 3 2) ].

(** [FryerMiot.mapping], the dictionary itself. *)
Definition mapping : gmap string address := list_to_map MIOT_MAPPING.

(** A request names an entry of the table, of the kind it needs. *)
Definition well_addressed (rq : request) : Prop :=
  match rq with
  | GetProperties => True
  | SetProperty n _ => exists s p, mapping !! n = Some (property s p)
  | CallAction n _ => exists s a, mapping !! n = Some (action s a)
  end.

(** A batch that answers only for properties of the table. *)
Definition mapped_batch (props : list RawProp) : Prop :=
  Forall (fun q => exists s p, mapping !! did q = Some (property s p)) props.

(** A command that either raises before anything is sent, or sends the one
    request [rq] and hands back the device's answer. *)
Definition refuses_or_submits {Reply : Type}
    (send_reply : list request -> request -> result Reply)
    (m : M Reply) (w : World) (rq : request) : Prop :=
  (exists e, m w = (Raise e, w)) \/ m w = submitted send_reply w rq.

(** ** Choosing the client class *)

(** The classes [determine_fryer_class] chooses between. *)
Inductive FryerClass : Type :=
  | Class_FryerMiot
  | Class_FryerMiotSCK
  | Class_FryerMiotMi.

(** [s in models]. *)
Definition str_in (s : string) (models : list string) : bool :=
  existsb (String.eqb s) models.

Section Models.

(** The model lists are constants of the integration that the module
    imports; they are parameters here. *)
Variables MODELS_CARELI MODELS_SILEN MODELS_MIOT MODELS_ALL_DEVICES
  : list string.

Definition determine_fryer_class (model : string) : M FryerClass :=
  if str_in model MODELS_CARELI then ret Class_FryerMiot
  else if str_in model MODELS_SILEN then ret Class_FryerMiotSCK
  else if str_in model MODELS_MIOT then ret Class_FryerMiotMi
  else if str_in model MODELS_ALL_DEVICES then ret Class_FryerMiot
  else
    let* _ := log_error "Unknown model: %s" (PStr model) in
    ret Class_FryerMiot.

End Models.

(** A snapshot in which every enumerated property carries 99. *)
Definition snapshot_all_99 : FryerStatusMiot.t :=
  snapshot_of
    [("status", PInt 99); ("device_fault", PInt 99); ("food_quanty", PInt 99);
     ("preheat_switch", PInt 99); ("turn_pot", PInt 99)].

(** A snapshot in which every property read failed. *)
Definition snapshot_all_None : FryerStatusMiot.t :=
  snapshot_of
    [("status", PNone); ("device_fault", PNone); ("target_time", PNone);
     ("target_temperature", PNone); ("left_time", PNone);
     ("recipe_id", PNone); ("appoint_time", PNone); ("food_quanty", PNone);
     ("preheat_switch", PNone); ("appoint_time_left", PNone);
     ("turn_pot", PNone)].

(** A batch with a record that reports success but carries no value. *)
Definition batch_value_missing : list RawProp :=
  [ {| did := "status"; code := 0; value := Some (PInt 4) |};
    {| did := "left_time"; code := 0; value := None |} ].

(** [batch_fault_failed] in another order. *)
Definition batch_fault_failed_shuffled : list RawProp :=
  [ {| did := "recipe_id"; code := 0; value := Some (PStr "M1") |};
    {| did := "status"; code := 0; value := Some (PInt 4) |};
    {| did := "target_time"; code := 0; value := Some (PInt 15) |};
    {| did := "device_fault"; code := -4001; value := None |} ].

(** ** Basic facts about the world and the status container *)

Lemma emit_nil (w : World) : emit w [] = w.
Proof. destruct w as [l q]. unfold emit. simpl. by rewrite app_nil_r. Qed.

Lemma emit_emit (w : World) (a b : list LogRecord) :
  emit (emit w a) b = emit w (a ++ b).
Proof. unfold emit. simpl. by rewrite app_assoc. Qed.

Lemma getitem_Some (self : FryerStatusMiot.t) (k : string) (v : PyVal) (w : World) :
  FryerStatusMiot.data self !! k = Some v ->
  FryerStatusMiot.getitem self k w = (Ok v, w).
Proof. intros H. unfold FryerStatusMiot.getitem, lift. by rewrite H. Qed.

Lemma getitem_None (self : FryerStatusMiot.t) (k : string) (w : World) :
  FryerStatusMiot.data self !! k = None ->
  FryerStatusMiot.getitem self k w = (Raise (KeyError k), w).
Proof. intros H. unfold FryerStatusMiot.getitem, lift. by rewrite H. Qed.

(** ** Operating status *)

Ltac no_member z :=
  unfold enum_call; cbn -[Z.eqb];
  repeat match goal with
         | |- context [Z.eqb ?c z] => destruct (Z.eqb_spec c z); [lia |]
         end;
  reflexivity.

Lemma Status_call_outside (z : Z) :
  z < -1 \/ 14 < z ->
  enum_call Status.t (PInt z) = Raise (ValueError (PInt z) "Status").
Proof. intros H. no_member z. Qed.

Lemma Status_call_inside (z : Z) :
  0 <= z <= 14 ->
  exists m, enum_call Status.t (PInt z) = Ok m /\ Status.value m = PInt z /\
            nth_error (tail Status.all) (Z.to_nat z) = Some m.
Proof.
  intros H.
  assert (Hz : In z (map Z.of_nat (seq 0 15))).
  { apply in_map_iff. exists (Z.to_nat z). split; [lia |].
    apply in_seq. lia. }
  simpl in Hz.
  repeat (destruct Hz as [<- | Hz]; [eexists; repeat split; reflexivity |]).
  destruct Hz.
Qed.

(** What the [status] getter does once the raw value is known. *)
Lemma status_matched (self : FryerStatusMiot.t) (v : PyVal) (m : Status.t) (w : World) :
  FryerStatusMiot.data self !! "status" = Some v ->
  enum_call Status.t v = Ok m ->
  FryerStatusMiot.status self w = (Ok (Status.value m), w).
Proof.
  intros Hd Hm.
  unfold FryerStatusMiot.status, try_except_ValueError, bind.
  rewrite (getitem_Some _ _ _ _ Hd). unfold lift. by rewrite Hm.
Qed.

Lemma status_unmatched (self : FryerStatusMiot.t) (v : PyVal) (w : World) :
  FryerStatusMiot.data self !! "status" = Some v ->
  enum_call Status.t v = Raise (ValueError v "Status") ->
  FryerStatusMiot.status self w =
    (Ok (Status.value Status.Unknown),
     emit w [{| fmt := "Unknown Status (%s)"; arg := v |}]).
Proof.
  intros Hd Hm.
  unfold FryerStatusMiot.status, try_except_ValueError, bind.
  rewrite (getitem_Some _ _ _ _ Hd). unfold lift. rewrite Hm.
  by rewrite (getitem_Some _ _ _ _ Hd).
Qed.

(** C4. Every integer raw status in 0..14 decodes to the member of the
    fifteen-member operating domain (Shutdown = 0 through Degrease = 14)
    that carries this value, silently; every other integer decodes to
    Unknown (-1) without raising, with one diagnostic unless the raw value
    is -1 itself. *)
Theorem C4_status_decode (self : FryerStatusMiot.t) (z : Z) (w : World) :
  FryerStatusMiot.data self !! "status" = Some (PInt z) ->
  (0 <= z <= 14 ->
     exists m, enum_call Status.t (PInt z) = Ok m /\
               nth_error
                 [Status.Shutdown; Status.Standby; Status.Pause;
                  Status.Appointment; Status.Cooking; Status.Preheat;
                  Status.Cooked; Status.PreheatFinish; Status.PreheatPause;
                  Status.Pause2; Status.Keepwarm; Status.KeepwarmPause;
                  Status.KeepwarmFinish; Status.CrispyRoast; Status.Degrease]
                 (Z.to_nat z) = Some m /\
               Status.value m = PInt z /\
               FryerStatusMiot.status self w = (Ok (PInt z), w)) /\
  (~ 0 <= z <= 14 ->
     FryerStatusMiot.status self w =
       (Ok (Status.value Status.Unknown),
        emit w (if Z.eqb z (-1) then []
                else [{| fmt := "Unknown Status (%s)"; arg := PInt z |}]))).
Proof.
  intros Hd. split.
  - intros Hz. destruct (Status_call_inside z Hz) as (m & Hm & Hv & Hn).
    exists m. repeat split; try assumption.
    rewrite <- Hv. by apply status_matched with (v := PInt z).
  - intros Hz. destruct (Z.eqb_spec z (-1)) as [-> | Hne].
    + rewrite emit_nil. by apply status_matched with (v := PInt (-1)).
    + apply status_unmatched; [assumption |].
      apply Status_call_outside. lia.
Qed.

Lemma C4_status_decode_witness :
  FryerStatusMiot.status (snapshot_of [("status", PInt 14)]) w0
    = (Ok (PInt 14), w0) /\
  FryerStatusMiot.status (snapshot_of [("status", PInt 99)]) w0
    = (Ok (PInt (-1)),
       {| log := [{| fmt := "Unknown Status (%s)"; arg := PInt 99 |}];
          wire := [] |}).
Proof.
  split.
  - destruct (C4_status_decode (snapshot_of [("status", PInt 14)]) 14 w0)
      as [Hin _]; [reflexivity |].
    destruct Hin as (m & _ & _ & _ & H); [lia | exact H].
  - destruct (C4_status_decode (snapshot_of [("status", PInt 99)]) 99 w0)
      as [_ Hout]; [reflexivity |].
    apply Hout. lia.
Defined.

(** ** Fallback of the enumerated getters *)

(** C1. The food quantity getter breaks the fallback the other enumerated
    getters follow: at the raw value 99, which no member of [FoodQuanty]
    carries, it logs the diagnostic and returns the in-domain member
    [Single] (value 1) instead of [Unknown] (value -1). *)
Theorem C1_food_quanty_fallback_is_Single :
  enum_call FoodQuanty.t (PInt 99) = Raise (ValueError (PInt 99) "FoodQuanty") /\
  FryerStatusMiot.food_quanty (snapshot_of [("food_quanty", PInt 99)]) w0
    = (Ok FoodQuanty.Single,
       {| log := [{| fmt := "Unknown FoodQuanty (%s)"; arg := PInt 99 |}];
          wire := [] |}) /\
  FoodQuanty.value FoodQuanty.Single = PInt 1 /\
  FoodQuanty.value FoodQuanty.Unknown = PInt (-1).
Proof. repeat split; reflexivity. Qed.

(** The same fallback holds for every raw value without a member. *)
Lemma food_quanty_unmatched (self : FryerStatusMiot.t) (v : PyVal) (w : World) :
  FryerStatusMiot.data self !! "food_quanty" = Some v ->
  enum_call FoodQuanty.t v = Raise (ValueError v "FoodQuanty") ->
  FryerStatusMiot.food_quanty self w =
    (Ok FoodQuanty.Single,
     emit w [{| fmt := "Unknown FoodQuanty (%s)"; arg := v |}]).
Proof.
  intros Hd Hm.
  unfold FryerStatusMiot.food_quanty, try_except_ValueError, bind.
  rewrite (getitem_Some _ _ _ _ Hd). unfold lift. rewrite Hm.
  by rewrite (getitem_Some _ _ _ _ Hd).
Qed.

(** The sibling getters do return their [Unknown] member. *)
Lemma device_fault_unmatched (self : FryerStatusMiot.t) (v : PyVal) (w : World) :
  FryerStatusMiot.data self !! "device_fault" = Some v ->
  enum_call DeviceFault.t v = Raise (ValueError v "DeviceFault") ->
  FryerStatusMiot.device_fault self w =
    (Ok (DeviceFault.value DeviceFault.Unknown),
     emit w [{| fmt := "Unknown Device Fault (%s)"; arg := v |}]).
Proof.
  intros Hd Hm.
  unfold FryerStatusMiot.device_fault, try_except_ValueError, bind.
  rewrite (getitem_Some _ _ _ _ Hd). unfold lift. rewrite Hm.
  by rewrite (getitem_Some _ _ _ _ Hd).
Qed.

Lemma preheat_switch_unmatched (self : FryerStatusMiot.t) (v : PyVal) (w : World) :
  FryerStatusMiot.data self !! "preheat_switch" = Some v ->
  enum_call PreheatSwitch.t v = Raise (ValueError v "PreheatSwitch") ->
  FryerStatusMiot.preheat_switch self w =
    (Ok (PreheatSwitch.value PreheatSwitch.Unknown),
     emit w [{| fmt := "Unknown PreheatSwitch (%s)"; arg := v |}]).
Proof.
  intros Hd Hm.
  unfold FryerStatusMiot.preheat_switch, try_except_ValueError, bind.
  rewrite (getitem_Some _ _ _ _ Hd). unfold lift. rewrite Hm.
  by rewrite (getitem_Some _ _ _ _ Hd).
Qed.

Lemma turn_pot_unmatched (self : FryerStatusMiot.t) (v : PyVal) (w : World) :
  FryerStatusMiot.data self !! "turn_pot" = Some v ->
  enum_call TurnPot.t v = Raise (ValueError v "TurnPot") ->
  FryerStatusMiot.turn_pot self w =
    (Ok TurnPot.Unknown,
     emit w [{| fmt := "Unknown TurnPot (%s)"; arg := v |}]).
Proof.
  intros Hd Hm.
  unfold FryerStatusMiot.turn_pot, try_except_ValueError, bind.
  rewrite (getitem_Some _ _ _ _ Hd). unfold lift. rewrite Hm.
  by rewrite (getitem_Some _ _ _ _ Hd).
Qed.

(** ** The powered-on predicate *)

Lemma Status_value_inj (a b : Status.t) :
  Status.value a = Status.value b -> a = b.
Proof. destruct a, b; simpl; intros H; first [reflexivity | discriminate H]. Qed.

Lemma small_status_cases (z : Z) :
  -1 <= z <= 14 -> In z [-1; 0; 1; 2; 3; 4; 5; 6; 7; 8; 9; 10; 11; 12; 13; 14].
Proof.
  intros H.
  replace z with (Z.of_nat (Z.to_nat (z + 1)) - 1) by lia.
  assert (Hn : (Z.to_nat (z + 1) < 16)%nat) by lia.
  revert Hn. generalize (Z.to_nat (z + 1)). intros n Hn.
  do 16 (destruct n as [| n]; [simpl; tauto |]). lia.
Qed.

(** The raw value is among 0, 1, 6, 9 exactly when the member it decodes
    to is one of the four powered-off members. *)
Lemma off_values_matched (v : PyVal) (m : Status.t) :
  enum_call Status.t v = Ok m ->
  py_in v [PInt 0; PInt 1; PInt 6; PInt 9] = true <->
  In m [Status.Shutdown; Status.Standby; Status.Cooked; Status.Pause2].
Proof.
  destruct v as [| [|] | z | s]; try discriminate.
  - intros [= <-]. simpl. tauto.
  - intros [= <-]. simpl. tauto.
  - destruct (decide (-1 <= z <= 14)) as [Hz | Hz].
    + apply small_status_cases in Hz. simpl in Hz.
      repeat (destruct Hz as [<- | Hz];
              [intros [= <-]; vm_compute; intuition congruence |]).
      destruct Hz.
    + rewrite Status_call_outside by lia. discriminate.
Qed.

Lemma off_values_unmatched (v : PyVal) (e : exn) :
  enum_call Status.t v = Raise e ->
  e = ValueError v "Status" /\
  py_in v [PInt 0; PInt 1; PInt 6; PInt 9] = false.
Proof.
  destruct v as [| [|] | z | s]; try discriminate.
  - intros [= <-]. split; reflexivity.
  - destruct (decide (-1 <= z <= 14)) as [Hz | Hz].
    + apply small_status_cases in Hz. simpl in Hz.
      repeat (destruct Hz as [<- | Hz]; [discriminate |]).
      destruct Hz.
    + rewrite Status_call_outside by lia. intros [= <-]. split; [reflexivity |].
      unfold py_in. cbn -[Z.eqb].
      repeat match goal with
             | |- context [Z.eqb z ?c] => destruct (Z.eqb_spec z c); [lia |]
             end.
      reflexivity.
  - intros [= <-]. split; reflexivity.
Qed.

(** C7, as the code has it. For every snapshot that holds a status, the
    powered-on predicate returns without raising and logs nothing; it is
    true exactly when the raw status equals none of 0, 1, 6, 9, which is
    exactly when the operating status the snapshot decodes to is none of
    Shutdown, Standby, Cooked, Pause2. For every snapshot that holds no
    status the predicate raises [KeyError]. *)
Theorem C7_is_on_present_status (self : FryerStatusMiot.t) (w : World) :
  (forall v, FryerStatusMiot.data self !! "status" = Some v ->
     exists (m : Status.t) (b : bool),
       fst (FryerStatusMiot.status self w) = Ok (Status.value m) /\
       FryerStatusMiot.is_on self w = (Ok b, w) /\
       b = negb (py_in v [PInt 0; PInt 1; PInt 6; PInt 9]) /\
       (b = true <->
        ~ In m [Status.Shutdown; Status.Standby;
                Status.Cooked; Status.Pause2])) /\
  (FryerStatusMiot.data self !! "status" = None ->
     FryerStatusMiot.is_on self w = (Raise (KeyError "status"), w)).
Proof.
  split.
  - intros v Hd.
    assert (Hon : FryerStatusMiot.is_on self w =
                  (Ok (negb (py_in v [PInt 0; PInt 1; PInt 6; PInt 9])), w)).
    { unfold FryerStatusMiot.is_on, bind.
      by rewrite (getitem_Some _ _ _ _ Hd). }
    destruct (enum_call Status.t v) as [m | e] eqn:Hm.
    + exists m, (negb (py_in v [PInt 0; PInt 1; PInt 6; PInt 9])).
      rewrite (status_matched _ _ _ _ Hd Hm).
      split; [reflexivity |]. split; [exact Hon |]. split; [reflexivity |].
      pose proof (off_values_matched v m Hm) as Hoff.
      destruct (py_in v [PInt 0; PInt 1; PInt 6; PInt 9]); cbn [negb].
      * split; [discriminate |]. intros Hn. destruct Hn. by apply Hoff.
      * split; [| reflexivity]. intros _ Hin. apply Hoff in Hin.
        discriminate Hin.
    + destruct (off_values_unmatched v e Hm) as [-> Hp].
      exists Status.Unknown, (negb (py_in v [PInt 0; PInt 1; PInt 6; PInt 9])).
      rewrite (status_unmatched _ _ _ Hd Hm).
      split; [reflexivity |]. split; [exact Hon |]. split; [reflexivity |].
      rewrite Hp. cbn [negb]. split; [| reflexivity].
      intros _. simpl. intuition discriminate.
  - intros Hd. unfold FryerStatusMiot.is_on, bind.
    by rewrite (getitem_None _ _ _ Hd).
Qed.

Lemma C7_is_on_present_status_witness :
  FryerStatusMiot.is_on (snapshot_of [("status", PInt 4)]) w0 = (Ok true, w0) /\
  FryerStatusMiot.is_on (snapshot_of [("status", PInt 6)]) w0 = (Ok false, w0) /\
  FryerStatusMiot.is_on (snapshot_of []) w0 = (Raise (KeyError "status"), w0).
Proof.
  split; [| split].
  - destruct (proj1 (C7_is_on_present_status
                       (snapshot_of [("status", PInt 4)]) w0)
                (PInt 4) eq_refl) as (m & b & _ & Hon & -> & _).
    exact Hon.
  - destruct (proj1 (C7_is_on_present_status
                       (snapshot_of [("status", PInt 6)]) w0)
                (PInt 6) eq_refl) as (m & b & _ & Hon & -> & _).
    exact Hon.
  - apply (proj2 (C7_is_on_present_status (snapshot_of []) w0)).
    reflexivity.
Defined.

(** C7, as the specification words it, fails for a snapshot that holds no
    status, which a batch answering for other properties only builds: no
    operating status is decoded, so it is none of the four, yet the
    predicate is not true: it raises [KeyError]. *)
Lemma C7_is_on_missing_status_raises :
  exists st,
    FryerMiot.status (fun _ => Ok batch_no_status) w0
      = (Ok st, sent w0 GetProperties) /\
    FryerStatusMiot.is_on st w0 = (Raise (KeyError "status"), w0) /\
    fst (FryerStatusMiot.is_on st w0) <> Ok true /\
    ~ (exists m, fst (FryerStatusMiot.status st w0) = Ok (Status.value m) /\
                 In m [Status.Shutdown; Status.Standby;
                       Status.Cooked; Status.Pause2]).
Proof.
  eexists. split; [reflexivity |]. split; [reflexivity |]. split.
  - discriminate.
  - intros (m & Hm & _). discriminate Hm.
Qed.

(** ** Building the container from a batch *)

Lemma status_data_lookup (props : list RawProp) :
  forall (acc d : gmap string PyVal),
    FryerMiot.status_data props acc = Ok d ->
    forall k : string,
      d !! k = match came_back k props with
               | Some q => match FryerMiot.stored_value q with
                           | Ok v => Some v
                           | Raise _ => None
                           end
               | None => acc !! k
               end.
Proof.
  induction props as [| prop rest IH]; intros acc d H k.
  - injection H as <-. reflexivity.
  - simpl in H. destruct (FryerMiot.stored_value prop) as [v | e] eqn:Hv;
      [| discriminate H].
    rewrite (IH _ _ H k). simpl.
    destruct (came_back k rest) as [q |]; [reflexivity |].
    destruct (String.eqb_spec (did prop) k) as [<- | Hne].
    + by rewrite lookup_insert_eq, Hv.
    + by rewrite lookup_insert_ne.
Qed.

Lemma status_data_complete (props : list RawProp) :
  complete props ->
  forall acc, exists d, FryerMiot.status_data props acc = Ok d.
Proof.
  induction 1 as [| prop rest Hp _ IH]; intros acc.
  - by exists acc.
  - simpl. unfold FryerMiot.stored_value.
    destruct (Z.eqb_spec (code prop) 0) as [Hc | Hc].
    + destruct (value prop) as [v |]; [apply IH |].
      by destruct (Hp Hc).
    + apply IH.
Qed.

Lemma stored_value_failed (q : RawProp) :
  code q <> 0 -> FryerMiot.stored_value q = Ok PNone.
Proof.
  intros H. unfold FryerMiot.stored_value.
  by destruct (Z.eqb_spec (code q) 0).
Qed.

Lemma status_built (read_reply : list request -> result (list RawProp))
    (w : World) (props : list RawProp) (d : gmap string PyVal) :
  read_reply (wire w) = Ok props ->
  FryerMiot.status_data props ∅ = Ok d ->
  FryerMiot.status read_reply w
    = (Ok (FryerStatusMiot.new d), sent w GetProperties).
Proof.
  intros Hr Hd.
  unfold FryerMiot.status, FryerMiot.get_properties_for_mapping, bind, lift.
  by rewrite Hr, Hd.
Qed.

(** C10. In a snapshot built from a batch whose status record carries a
    non-success code, the status is stored as [None] and the powered-on
    predicate returns true. *)
Theorem C10_failed_status_reads_on
    (read_reply : list request -> result (list RawProp))
    (w w' : World) (props : list RawProp) (q : RawProp)
    (st : FryerStatusMiot.t) :
  read_reply (wire w) = Ok props ->
  came_back "status" props = Some q ->
  code q <> 0 ->
  FryerMiot.status read_reply w = (Ok st, w') ->
  FryerStatusMiot.data st !! "status" = Some PNone /\
  forall w1, FryerStatusMiot.is_on st w1 = (Ok true, w1).
Proof.
  intros Hr Hq Hc Hst.
  unfold FryerMiot.status, FryerMiot.get_properties_for_mapping, bind, lift
    in Hst.
  rewrite Hr in Hst.
  destruct (FryerMiot.status_data props ∅) as [d | e] eqn:Hd;
    [| discriminate Hst].
  injection Hst as <- _.
  assert (Hl : d !! "status" = Some PNone).
  { rewrite (status_data_lookup _ _ _ Hd), Hq.
    by rewrite stored_value_failed. }
  split; [exact Hl |].
  intros w1. unfold FryerStatusMiot.is_on, bind.
  by rewrite (getitem_Some (FryerStatusMiot.new d) _ _ _ Hl).
Qed.

Lemma C10_failed_status_reads_on_witness :
  exists st,
    FryerMiot.status (fun _ => Ok batch_status_failed) w0
      = (Ok st, sent w0 GetProperties) /\
    FryerStatusMiot.is_on st w0 = (Ok true, w0).
Proof.
  eexists. split; [reflexivity |].
  eapply (C10_failed_status_reads_on (fun _ => Ok batch_status_failed) w0
            (sent w0 GetProperties) batch_status_failed
            {| did := "status"; code := -4004; value := None |}).
  - reflexivity.
  - reflexivity.
  - simpl. lia.
  - reflexivity.
Defined.

(** A property the batch returned is held under its name. *)
Lemma returned_lookup (props : list RawProp) (d : gmap string PyVal)
    (name : string) (v : PyVal) :
  FryerMiot.status_data props ∅ = Ok d ->
  returned name v props ->
  FryerStatusMiot.data (FryerStatusMiot.new d) !! name = Some v.
Proof.
  intros Hd (q & Hq & Hc & Hv). cbn [FryerStatusMiot.data].
  rewrite (status_data_lookup _ _ _ Hd), Hq.
  unfold FryerMiot.stored_value. by rewrite Hc, Hv.
Qed.

(** A call of an enumeration raises nothing but its [ValueError]. *)
Lemma enum_call_Raise (E : Type) `{PyEnum E PyVal} (v : PyVal) (e : exn) :
  enum_call E v = Raise e -> e = ValueError v (cls_name E).
Proof.
  unfold enum_call. destruct (find _ _); [discriminate |]. by intros [= <-].
Qed.

Ltac read_key Hk :=
  unfold FryerStatusMiot.is_on, FryerStatusMiot.status,
    FryerStatusMiot.food_quanty, FryerStatusMiot.preheat_switch,
    FryerStatusMiot.turn_pot, FryerStatusMiot.target_time,
    FryerStatusMiot.target_temperature, FryerStatusMiot.left_time,
    FryerStatusMiot.recipe_id, FryerStatusMiot.appoint_time,
    FryerStatusMiot.appoint_time_left,
    try_except_ValueError, bind, FryerStatusMiot.getitem, lift;
  rewrite ?Hk.

(** C2, as the code has it. Let every record of the batch that reports
    success carry its value. Then the snapshot is built with one transport
    request, and its properties are read one by one. When the device fault
    record carries a non-success code, the device fault reads as Unknown
    (-1), with one diagnostic; when the batch has no device fault record
    at all, reading the device fault raises [KeyError]. Either way every
    other property the batch returned decodes as usual: the scalar getters
    hand back the raw value, the powered-on predicate tests it against 0,
    1, 6, 9, the status, the preheat switch and the turn pot give the
    member carrying it, or Unknown with one diagnostic, and the food
    quantity gives the member carrying it. *)
Theorem C2_failed_device_fault_reads_Unknown
    (read_reply : list request -> result (list RawProp))
    (w : World) (props : list RawProp) :
  read_reply (wire w) = Ok props ->
  complete props ->
  exists st,
    FryerMiot.status read_reply w = (Ok st, sent w GetProperties) /\
    (forall q w1,
        came_back "device_fault" props = Some q -> code q <> 0 ->
        FryerStatusMiot.device_fault st w1 =
          (Ok (DeviceFault.value DeviceFault.Unknown),
           emit w1 [{| fmt := "Unknown Device Fault (%s)"; arg := PNone |}])) /\
    (forall w1,
        came_back "device_fault" props = None ->
        FryerStatusMiot.device_fault st w1
          = (Raise (KeyError "device_fault"), w1)) /\
    (forall v w1, returned "status" v props ->
        FryerStatusMiot.is_on st w1
          = (Ok (negb (py_in v [PInt 0; PInt 1; PInt 6; PInt 9])), w1) /\
        FryerStatusMiot.status st w1 =
          match enum_call Status.t v with
          | Ok m => (Ok (Status.value m), w1)
          | Raise _ =>
              (Ok (Status.value Status.Unknown),
               emit w1 [{| fmt := "Unknown Status (%s)"; arg := v |}])
          end) /\
    (forall v w1, returned "target_time" v props ->
        FryerStatusMiot.target_time st w1 = (Ok v, w1)) /\
    (forall v w1, returned "target_temperature" v props ->
        FryerStatusMiot.target_temperature st w1 = (Ok v, w1)) /\
    (forall v w1, returned "left_time" v props ->
        FryerStatusMiot.left_time st w1 = (Ok v, w1)) /\
    (forall v w1, returned "recipe_id" v props ->
        FryerStatusMiot.recipe_id st w1 = (Ok v, w1)) /\
    (forall v w1, returned "appoint_time" v props ->
        FryerStatusMiot.appoint_time st w1 = (Ok v, w1)) /\
    (forall v w1, returned "appoint_time_left" v props ->
        FryerStatusMiot.appoint_time_left st w1 = (Ok v, w1)) /\
    (forall v w1, returned "preheat_switch" v props ->
        FryerStatusMiot.preheat_switch st w1 =
          match enum_call PreheatSwitch.t v with
          | Ok m => (Ok (PreheatSwitch.value m), w1)
          | Raise _ =>
              (Ok (PreheatSwitch.value PreheatSwitch.Unknown),
               emit w1 [{| fmt := "Unknown PreheatSwitch (%s)"; arg := v |}])
          end) /\
    (forall v w1, returned "turn_pot" v props ->
        FryerStatusMiot.turn_pot st w1 =
          match enum_call TurnPot.t v with
          | Ok m => (Ok m, w1)
          | Raise _ =>
              (Ok TurnPot.Unknown,
               emit w1 [{| fmt := "Unknown TurnPot (%s)"; arg := v |}])
          end) /\
    (forall v m w1, returned "food_quanty" v props ->
        enum_call FoodQuanty.t v = Ok m ->
        FryerStatusMiot.food_quanty st w1 = (Ok m, w1)).
Proof.
  intros Hr Hc.
  destruct (status_data_complete props Hc ∅) as [d Hd].
  exists (FryerStatusMiot.new d).
  split; [exact (status_built read_reply w props d Hr Hd) |].
  split; [| split].
  { intros q w1 Hq Hcode. apply device_fault_unmatched; [| reflexivity].
    cbn [FryerStatusMiot.data].
    rewrite (status_data_lookup _ _ _ Hd), Hq.
    by rewrite stored_value_failed. }
  { intros w1 Hq.
    assert (Hk : FryerStatusMiot.data (FryerStatusMiot.new d)
                   !! "device_fault" = None).
    { cbn [FryerStatusMiot.data].
      by rewrite (status_data_lookup _ _ _ Hd), Hq. }
    unfold FryerStatusMiot.device_fault, try_except_ValueError, bind.
    by rewrite (getitem_None _ _ _ Hk). }
  repeat match goal with |- _ /\ _ => split end.
  - intros v w1 Hv. pose proof (returned_lookup _ _ _ _ Hd Hv) as Hk.
    split; read_key Hk; [reflexivity |].
    destruct (enum_call Status.t v) as [m | e] eqn:Hm; [reflexivity |].
    by rewrite (enum_call_Raise _ _ _ Hm).
  - intros v w1 Hv. pose proof (returned_lookup _ _ _ _ Hd Hv) as Hk.
    by read_key Hk.
  - intros v w1 Hv. pose proof (returned_lookup _ _ _ _ Hd Hv) as Hk.
    by read_key Hk.
  - intros v w1 Hv. pose proof (returned_lookup _ _ _ _ Hd Hv) as Hk.
    by read_key Hk.
  - intros v w1 Hv. pose proof (returned_lookup _ _ _ _ Hd Hv) as Hk.
    by read_key Hk.
  - intros v w1 Hv. pose proof (returned_lookup _ _ _ _ Hd Hv) as Hk.
    by read_key Hk.
  - intros v w1 Hv. pose proof (returned_lookup _ _ _ _ Hd Hv) as Hk.
    by read_key Hk.
  - intros v w1 Hv. pose proof (returned_lookup _ _ _ _ Hd Hv) as Hk.
    read_key Hk.
    destruct (enum_call PreheatSwitch.t v) as [m | e] eqn:Hm; [reflexivity |].
    by rewrite (enum_call_Raise _ _ _ Hm).
  - intros v w1 Hv. pose proof (returned_lookup _ _ _ _ Hd Hv) as Hk.
    read_key Hk.
    destruct (enum_call TurnPot.t v) as [m | e] eqn:Hm; [reflexivity |].
    by rewrite (enum_call_Raise _ _ _ Hm).
  - intros v m w1 Hv Hm. pose proof (returned_lookup _ _ _ _ Hd Hv) as Hk.
    read_key Hk. by rewrite Hm.
Qed.

Lemma C2_failed_device_fault_reads_Unknown_witness :
  exists st,
    FryerMiot.status (fun _ => Ok batch_fault_failed) w0
      = (Ok st, sent w0 GetProperties) /\
    FryerStatusMiot.device_fault st w0 =
      (Ok (PInt (-1)),
       emit w0 [{| fmt := "Unknown Device Fault (%s)"; arg := PNone |}]) /\
    FryerStatusMiot.status st w0 = (Ok (PInt 4), w0) /\
    FryerStatusMiot.is_on st w0 = (Ok true, w0) /\
    FryerStatusMiot.target_time st w0 = (Ok (PInt 15), w0) /\
    FryerStatusMiot.recipe_id st w0 = (Ok (PStr "M1"), w0).
Proof.
  destruct (C2_failed_device_fault_reads_Unknown
              (fun _ => Ok batch_fault_failed) w0 batch_fault_failed)
    as (st & Hst & Hdf & _ & Hstatus & Htime & _ & _ & Hrecipe & _).
  - reflexivity.
  - unfold complete, batch_fault_failed.
    repeat constructor; simpl; intros; discriminate.
  - exists st. split; [exact Hst |].
    split.
    { apply (Hdf {| did := "device_fault"; code := -4001; value := None |});
        [reflexivity | simpl; lia]. }
    assert (Hs : returned "status" (PInt 4) batch_fault_failed).
    { by exists {| did := "status"; code := 0; value := Some (PInt 4) |}. }
    split; [apply (Hstatus (PInt 4) w0 Hs) |].
    split; [apply (Hstatus (PInt 4) w0 Hs) |].
    split.
    { apply Htime.
      by exists {| did := "target_time"; code := 0;
                   value := Some (PInt 15) |}. }
    apply Hrecipe.
    by exists {| did := "recipe_id"; code := 0; value := Some (PStr "M1") |}.
Defined.

(** C2, as the specification words it, fails when the record is missing:
    the snapshot is built, but reading its device fault raises [KeyError]
    instead of yielding Unknown. *)
Lemma C2_missing_device_fault_raises :
  came_back "device_fault" batch_fault_missing = None /\
  complete batch_fault_missing /\
  exists st,
    FryerMiot.status (fun _ => Ok batch_fault_missing) w0
      = (Ok st, sent w0 GetProperties) /\
    (forall w1, FryerStatusMiot.device_fault st w1
                = (Raise (KeyError "device_fault"), w1)) /\
    (forall w1, is_ok (fst (FryerStatusMiot.device_fault st w1)) = false).
Proof.
  split; [reflexivity |]. split.
  { unfold complete, batch_fault_missing.
    repeat constructor; simpl; intros; discriminate. }
  eexists. split; [reflexivity |]. split; intros w1; reflexivity.
Qed.

(** ** Decoding is stateless *)

Section Stateless.

Context {A B : Type}.

Lemma stateless_ret (a : A) : stateless (ret a).
Proof. exists (Ok a), []. intros w. by rewrite emit_nil. Qed.

Lemma stateless_lift (r : result A) : stateless (lift r).
Proof. exists r, []. intros w. by rewrite emit_nil. Qed.

Lemma stateless_bind (m : M A) (k : A -> M B) :
  stateless m -> (forall a, stateless (k a)) -> stateless (bind m k).
Proof.
  intros (r & ds & Hm) Hk. destruct r as [a | e].
  - destruct (Hk a) as (r' & ds' & Hka).
    exists r', (ds ++ ds')%list. intros w.
    unfold bind. by rewrite Hm, Hka, emit_emit.
  - exists (Raise e), ds. intros w. unfold bind. by rewrite Hm.
Qed.

Lemma stateless_try (body handler : M A) :
  stateless body -> stateless handler ->
  stateless (try_except_ValueError body handler).
Proof.
  intros (r & ds & Hb) (r' & ds' & Hh).
  destruct r as [a | [k | v c | msg]].
  - exists (Ok a), ds. intros w. unfold try_except_ValueError. by rewrite Hb.
  - exists (Raise (KeyError k)), ds. intros w.
    unfold try_except_ValueError. by rewrite Hb.
  - exists r', (ds ++ ds')%list. intros w.
    unfold try_except_ValueError. by rewrite Hb, Hh, emit_emit.
  - exists (Raise (DeviceException msg)), ds. intros w.
    unfold try_except_ValueError. by rewrite Hb.
Qed.

Lemma stateless_attempt (m : M A) : stateless m -> stateless (attempt m).
Proof.
  intros (r & ds & Hm). exists (Ok r), ds. intros w.
  unfold attempt. by rewrite Hm.
Qed.

End Stateless.

Lemma stateless_log_error (f : string) (a : PyVal) : stateless (log_error f a).
Proof. by exists (Ok tt), [{| fmt := f; arg := a |}]. Qed.

Lemma stateless_getitem (self : FryerStatusMiot.t) (k : string) :
  stateless (FryerStatusMiot.getitem self k).
Proof. apply stateless_lift. Qed.

Ltac stateless_steps :=
  repeat first
    [ apply stateless_ret | apply stateless_lift | apply stateless_getitem
    | apply stateless_log_error | apply stateless_attempt
    | apply stateless_try | apply stateless_bind | intros ? ].

Lemma stateless_read_all (self : FryerStatusMiot.t) :
  stateless (FryerStatusMiot.read_all self).
Proof.
  unfold FryerStatusMiot.read_all, FryerStatusMiot.is_on, FryerStatusMiot.mode,
    FryerStatusMiot.status, FryerStatusMiot.device_fault,
    FryerStatusMiot.target_time, FryerStatusMiot.target_temperature,
    FryerStatusMiot.left_time, FryerStatusMiot.recipe_id,
    FryerStatusMiot.recipe_name, FryerStatusMiot.appoint_time,
    FryerStatusMiot.food_quanty, FryerStatusMiot.preheat_switch,
    FryerStatusMiot.appoint_time_left, FryerStatusMiot.turn_pot.
  stateless_steps.
Qed.

Lemma stateless_decode (props : list RawProp) :
  stateless (FryerMiot.decode props).
Proof.
  unfold FryerMiot.decode. apply stateless_bind.
  - apply stateless_lift.
  - intros d. apply stateless_read_all.
Qed.

(** C9. Decoding a batch is a function of the batch alone: whatever the
    logger and the transport have seen before, it yields the same fields
    and the same diagnostics, sends nothing, and decoding the same batch
    again right after yields the identical fields. *)
Theorem C9_decode_deterministic (props : list RawProp) :
  exists (r : result FryerStatusMiot.Fields) (ds : list LogRecord),
    (forall w, FryerMiot.decode props w = (r, emit w ds)) /\
    (forall w1 w2,
        fst (FryerMiot.decode props w1) = fst (FryerMiot.decode props w2)) /\
    (forall w,
        fst (FryerMiot.decode props (snd (FryerMiot.decode props w)))
        = fst (FryerMiot.decode props w)) /\
    (forall w, wire (snd (FryerMiot.decode props w)) = wire w).
Proof.
  destruct (stateless_decode props) as (r & ds & H).
  exists r, ds. split; [exact H |]. split; [| split].
  - intros w1 w2. by rewrite !H.
  - intros w. by rewrite !H.
  - intros w. by rewrite H.
Qed.

(** ** Commands *)

Section Commands.

Variable Reply : Type.
Variable send_reply : list request -> request -> result Reply.

(** C3. [start_custom_cook] resolves its argument as the specification's
    preset table does: a token of the table submits the action with the
    seven fields joined by commas in the fixed order, the name empty; any
    other argument raises the lookup's [ValueError] and nothing is sent.
    [M1] submits exactly [M1,,15,200,0,3,0], and [M9] fails. *)
Theorem C3_start_custom_cook_encoding (mode : PyVal) (w : World) :
  FryerMiot.start_custom_cook Reply send_reply mode w =
    match mode with
    | PStr token =>
        match spec_resolve token with
        | Some p =>
            submitted send_reply w (CallAction "start_custom_cook"
                           (Some (PStr (spec_serialize p))))
        | None => (Raise (ValueError mode "RecipeId"), w)
        end
    | _ => (Raise (ValueError mode "RecipeId"), w)
    end /\
  FryerMiot.start_custom_cook Reply send_reply (PStr "M1") w =
    submitted send_reply w (CallAction "start_custom_cook"
                   (Some (PStr "M1,,15,200,0,3,0"))) /\
  FryerMiot.start_custom_cook Reply send_reply (PStr "M9") w =
    (Raise (ValueError (PStr "M9") "RecipeId"), w).
Proof.
  split; [| split; reflexivity].
  destruct mode as [| b | z | token]; try reflexivity.
  unfold FryerMiot.start_custom_cook, bind, lift, enum_call, spec_resolve.
  cbn -[String.eqb].
  repeat match goal with
         | |- context [String.eqb ?c token] =>
             destruct (String.eqb_spec c token) as [<- | ?]; [reflexivity |]
         end.
  reflexivity.
Qed.

(** C5. Each ranged setter submits its property write exactly on its
    inclusive range and raises [DeviceException], sending nothing, outside
    it: appoint time on 0..1440, target time on 1..1440, target temperature
    on 40..200, food quantity on 0..5. *)
Theorem C5_ranged_setters (x : Z) (w : World) :
  ((0 <= x <= 1440 ->
    FryerMiot.appoint_time Reply send_reply x w
      = submitted send_reply w (SetProperty "appoint_time" (PInt x))) /\
   (~ 0 <= x <= 1440 ->
    exists msg, FryerMiot.appoint_time Reply send_reply x w
                = (Raise (DeviceException msg), w))) /\
  ((1 <= x <= 1440 ->
    FryerMiot.target_time Reply send_reply x w
      = submitted send_reply w (SetProperty "target_time" (PInt x))) /\
   (~ 1 <= x <= 1440 ->
    exists msg, FryerMiot.target_time Reply send_reply x w
                = (Raise (DeviceException msg), w))) /\
  ((40 <= x <= 200 ->
    FryerMiot.target_temperature Reply send_reply x w
      = submitted send_reply w (SetProperty "target_temperature" (PInt x))) /\
   (~ 40 <= x <= 200 ->
    exists msg, FryerMiot.target_temperature Reply send_reply x w
                = (Raise (DeviceException msg), w))) /\
  ((0 <= x <= 5 ->
    FryerMiot.food_quanty Reply send_reply x w
      = submitted send_reply w (SetProperty "food_quanty" (PInt x))) /\
   (~ 0 <= x <= 5 ->
    exists msg, FryerMiot.food_quanty Reply send_reply x w
                = (Raise (DeviceException msg), w))).
Proof.
  unfold FryerMiot.appoint_time, FryerMiot.target_time,
    FryerMiot.target_temperature, FryerMiot.food_quanty.
  change (24 * 60) with 1440.
  repeat split; intros H;
    match goal with
    | |- context [Z.ltb x ?lo || Z.gtb x ?hi] =>
        destruct (Z.ltb_spec x lo); destruct (Z.gtb_spec x hi);
        simpl; first [lia | reflexivity | eexists; reflexivity]
    end.
Qed.

Lemma py_eq_PStr (s : string) (v : PyVal) :
  py_eq (PStr s) v = true -> v = PStr s.
Proof.
  destruct v as [| b | z | t]; simpl; try discriminate.
  intros H. apply String.eqb_eq in H. by subst.
Qed.

Lemma RecipeId_call_unknown (mode : PyVal) :
  (forall m : RecipeId.t, RecipeId.value m <> mode) ->
  enum_call RecipeId.t mode = Raise (ValueError mode "RecipeId").
Proof.
  intros H. unfold enum_call.
  destruct (find _ _) as [m |] eqn:Hf; [| reflexivity].
  apply find_some in Hf. destruct Hf as [_ Hf].
  apply py_eq_PStr in Hf. destruct (H m). by rewrite Hf.
Qed.

(** C8. A command whose argument violates its constraint (a value outside
    the setter's range, a token that is no preset's) raises and leaves the
    world as it was: no request reaches the transport. *)
Theorem C8_validation_precedes_transport (w : World) :
  (forall x, ~ 0 <= x <= 1440 ->
     is_ok (fst (FryerMiot.appoint_time Reply send_reply x w)) = false /\
     snd (FryerMiot.appoint_time Reply send_reply x w) = w) /\
  (forall x, ~ 1 <= x <= 1440 ->
     is_ok (fst (FryerMiot.target_time Reply send_reply x w)) = false /\
     snd (FryerMiot.target_time Reply send_reply x w) = w) /\
  (forall x, ~ 40 <= x <= 200 ->
     is_ok (fst (FryerMiot.target_temperature Reply send_reply x w)) = false /\
     snd (FryerMiot.target_temperature Reply send_reply x w) = w) /\
  (forall x, ~ 0 <= x <= 5 ->
     is_ok (fst (FryerMiot.food_quanty Reply send_reply x w)) = false /\
     snd (FryerMiot.food_quanty Reply send_reply x w) = w) /\
  (forall mode, (forall m : RecipeId.t, RecipeId.value m <> mode) ->
     is_ok (fst (FryerMiot.start_custom_cook Reply send_reply mode w)) = false /\
     snd (FryerMiot.start_custom_cook Reply send_reply mode w) = w).
Proof.
  unfold FryerMiot.appoint_time, FryerMiot.target_time,
    FryerMiot.target_temperature, FryerMiot.food_quanty.
  change (24 * 60) with 1440.
  split; [| split; [| split; [| split]]].
  1-4: intros x H;
    match goal with
    | |- context [Z.ltb x ?lo || Z.gtb x ?hi] =>
        destruct (Z.ltb_spec x lo); destruct (Z.gtb_spec x hi);
        simpl; first [lia | split; reflexivity]
    end.
  intros mode H. unfold FryerMiot.start_custom_cook, bind, lift.
  rewrite (RecipeId_call_unknown mode H). split; reflexivity.
Qed.

End Commands.

Lemma C5_ranged_setters_witness :
  (FryerMiot.appoint_time unit ack 0 w0
     = submitted ack w0 (SetProperty "appoint_time" (PInt 0)) /\
   FryerMiot.appoint_time unit ack 1440 w0
     = submitted ack w0 (SetProperty "appoint_time" (PInt 1440)) /\
   (exists msg, FryerMiot.appoint_time unit ack 1441 w0
                = (Raise (DeviceException msg), w0)) /\
   (exists msg, FryerMiot.appoint_time unit ack (-1) w0
                = (Raise (DeviceException msg), w0))) /\
  ((exists msg, FryerMiot.target_time unit ack 0 w0
                = (Raise (DeviceException msg), w0)) /\
   FryerMiot.target_time unit ack 1 w0
     = submitted ack w0 (SetProperty "target_time" (PInt 1)) /\
   FryerMiot.target_time unit ack 1440 w0
     = submitted ack w0 (SetProperty "target_time" (PInt 1440)) /\
   (exists msg, FryerMiot.target_time unit ack 1441 w0
                = (Raise (DeviceException msg), w0))) /\
  ((exists msg, FryerMiot.target_temperature unit ack 39 w0
                = (Raise (DeviceException msg), w0)) /\
   FryerMiot.target_temperature unit ack 40 w0
     = submitted ack w0 (SetProperty "target_temperature" (PInt 40)) /\
   FryerMiot.target_temperature unit ack 200 w0
     = submitted ack w0 (SetProperty "target_temperature" (PInt 200)) /\
   (exists msg, FryerMiot.target_temperature unit ack 201 w0
                = (Raise (DeviceException msg), w0))) /\
  ((exists msg, FryerMiot.food_quanty unit ack (-1) w0
                = (Raise (DeviceException msg), w0)) /\
   FryerMiot.food_quanty unit ack 0 w0
     = submitted ack w0 (SetProperty "food_quanty" (PInt 0)) /\
   FryerMiot.food_quanty unit ack 5 w0
     = submitted ack w0 (SetProperty "food_quanty" (PInt 5)) /\
   (exists msg, FryerMiot.food_quanty unit ack 6 w0
                = (Raise (DeviceException msg), w0))).
Proof.
  pose proof (fun x => C5_ranged_setters unit ack x w0) as H.
  split; [| split; [| split]].
  - split; [| split; [| split]].
    + apply (proj1 (proj1 (H 0))). lia.
    + apply (proj1 (proj1 (H 1440))). lia.
    + apply (proj2 (proj1 (H 1441))). lia.
    + apply (proj2 (proj1 (H (-1)))). lia.
  - split; [| split; [| split]].
    + apply (proj2 (proj1 (proj2 (H 0)))). lia.
    + apply (proj1 (proj1 (proj2 (H 1)))). lia.
    + apply (proj1 (proj1 (proj2 (H 1440)))). lia.
    + apply (proj2 (proj1 (proj2 (H 1441)))). lia.
  - split; [| split; [| split]].
    + apply (proj2 (proj1 (proj2 (proj2 (H 39))))). lia.
    + apply (proj1 (proj1 (proj2 (proj2 (H 40))))). lia.
    + apply (proj1 (proj1 (proj2 (proj2 (H 200))))). lia.
    + apply (proj2 (proj1 (proj2 (proj2 (H 201))))). lia.
  - split; [| split; [| split]].
    + apply (proj2 (proj2 (proj2 (proj2 (H (-1)))))). lia.
    + apply (proj1 (proj2 (proj2 (proj2 (H 0))))). lia.
    + apply (proj1 (proj2 (proj2 (proj2 (H 5))))). lia.
    + apply (proj2 (proj2 (proj2 (proj2 (H 6))))). lia.
Defined.

Lemma C8_validation_precedes_transport_witness :
  snd (FryerMiot.appoint_time unit ack 1441 w0) = w0 /\
  snd (FryerMiot.target_time unit ack 0 w0) = w0 /\
  snd (FryerMiot.target_temperature unit ack 201 w0) = w0 /\
  snd (FryerMiot.food_quanty unit ack 6 w0) = w0 /\
  is_ok (fst (FryerMiot.start_custom_cook unit ack (PStr "M9") w0)) = false /\
  snd (FryerMiot.start_custom_cook unit ack (PStr "M9") w0) = w0.
Proof.
  destruct (C8_validation_precedes_transport unit ack w0)
    as (Ha & Ht & Hc & Hf & Hs).
  split; [apply (Ha 1441); lia |].
  split; [apply (Ht 0); lia |].
  split; [apply (Hc 201); lia |].
  split; [apply (Hf 6); lia |].
  apply (Hs (PStr "M9")).
  intros [[]]; discriminate.
Defined.

(** ** The recipe name *)

(** C6. The recipe name getter never returns a display name. It calls
    [RecipeName] with the member name [RecipeId] resolved, and a call looks
    a member up by value: no display name equals a member name, so the
    lookup raises. For the token [M1] the getter raises [ValueError] on
    [FrenchFries] where the table holds the display name of French fries;
    and no snapshot at all makes it return. *)
Theorem C6_recipe_name_raises :
  FryerStatusMiot.recipe_name (snapshot_of [("recipe_id", PStr "M1")]) w0
    = (Raise (ValueError (PStr "FrenchFries") "RecipeName"), w0) /\
  enum_call RecipeId.t (PStr "M1") = Ok (RecipeId.member FrenchFries) /\
  enum_getitem RecipeName.t "FrenchFries"
    = Ok (RecipeName.member FrenchFries) /\
  RecipeName.value (RecipeName.member FrenchFries) = PStr "Картофель Фри" /\
  forall self w, is_ok (fst (FryerStatusMiot.recipe_name self w)) = false.
Proof.
  repeat split.
  intros self w. unfold FryerStatusMiot.recipe_name, bind, lift.
  unfold FryerStatusMiot.getitem, lift.
  destruct (FryerStatusMiot.data self !! "recipe_id") as [v |];
    [| reflexivity].
  destruct (enum_call RecipeId.t v) as [[[]] | e]; reflexivity.
Qed.

(** ** Further properties of the enumerations *)

(** Calling an enumeration either finds a member carrying the value or
    raises [ValueError] on that value, nothing else. *)
Lemma enum_call_cases (E : Type) `{PyEnum E PyVal} (v : PyVal) :
  (exists m, enum_call E v = Ok m /\ In m (members E) /\
             py_eq (value_of m) v = true) \/
  enum_call E v = Raise (ValueError v (cls_name E)).
Proof.
  unfold enum_call.
  destruct (find _ _) as [m |] eqn:Hf; [left | by right].
  apply find_some in Hf. by exists m.
Qed.

(** X1. No enumeration has aliases: every member is the one its value resolves
    to when the class is called, and the one its name resolves to when the
    class is subscripted; the three recipe enumerations share their member
    names. *)
Theorem enum_members_round_trip :
  (forall m : Status.t, enum_call Status.t (value_of m) = Ok m /\
                        enum_getitem Status.t (name_of m) = Ok m) /\
  (forall m : DeviceFault.t, enum_call DeviceFault.t (value_of m) = Ok m /\
                             enum_getitem DeviceFault.t (name_of m) = Ok m) /\
  (forall m : FoodQuanty.t, enum_call FoodQuanty.t (value_of m) = Ok m /\
                            enum_getitem FoodQuanty.t (name_of m) = Ok m) /\
  (forall m : TurnPot.t, enum_call TurnPot.t (value_of m) = Ok m /\
                         enum_getitem TurnPot.t (name_of m) = Ok m) /\
  (forall m : PreheatSwitch.t, enum_call PreheatSwitch.t (value_of m) = Ok m /\
                               enum_getitem PreheatSwitch.t (name_of m) = Ok m) /\
  (forall m : RecipeId.t, enum_call RecipeId.t (value_of m) = Ok m /\
                          enum_getitem RecipeId.t (name_of m) = Ok m) /\
  (forall m : RecipeName.t, enum_call RecipeName.t (value_of m) = Ok m /\
                            enum_getitem RecipeName.t (name_of m) = Ok m) /\
  (forall m : RecipeToCommand.t,
      enum_getitem RecipeToCommand.t (name_of m) = Ok m).
Proof.
  repeat split; intros;
    match goal with
    | m : RecipeId.t |- _ => destruct m as [[]]
    | m : RecipeName.t |- _ => destruct m as [[]]
    | m : RecipeToCommand.t |- _ => destruct m as [[]]
    | m : _ |- _ => destruct m
    end; reflexivity.
Qed.

(** ** Further properties of the status container *)

Ltac run_getter Hd :=
  unfold FryerStatusMiot.is_on, FryerStatusMiot.status,
    FryerStatusMiot.device_fault, FryerStatusMiot.food_quanty,
    FryerStatusMiot.preheat_switch, FryerStatusMiot.turn_pot,
    FryerStatusMiot.recipe_name, FryerStatusMiot.target_time,
    FryerStatusMiot.target_temperature, FryerStatusMiot.left_time,
    FryerStatusMiot.recipe_id, FryerStatusMiot.appoint_time,
    FryerStatusMiot.appoint_time_left,
    try_except_ValueError, bind, FryerStatusMiot.getitem, lift;
  rewrite ?Hd.

(** X2. The enumerated getters never raise on a property that is present,
    whatever it holds: a value some member carries decodes to that member
    with no diagnostic, any other value gives the fallback with exactly one
    diagnostic naming the value. The fallback is [Unknown] for the status,
    the device fault, the preheat switch and the turn pot, and [Single]
    for the food quantity. *)
Theorem enumerated_getters_never_raise (self : FryerStatusMiot.t) (w : World) :
  (forall v, FryerStatusMiot.data self !! "status" = Some v ->
     FryerStatusMiot.status self w =
       match enum_call Status.t v with
       | Ok m => (Ok (Status.value m), w)
       | Raise _ => (Ok (PInt (-1)),
                     emit w [{| fmt := "Unknown Status (%s)"; arg := v |}])
       end) /\
  (forall v, FryerStatusMiot.data self !! "device_fault" = Some v ->
     FryerStatusMiot.device_fault self w =
       match enum_call DeviceFault.t v with
       | Ok m => (Ok (DeviceFault.value m), w)
       | Raise _ => (Ok (PInt (-1)),
                     emit w [{| fmt := "Unknown Device Fault (%s)"; arg := v |}])
       end) /\
  (forall v, FryerStatusMiot.data self !! "food_quanty" = Some v ->
     FryerStatusMiot.food_quanty self w =
       match enum_call FoodQuanty.t v with
       | Ok m => (Ok m, w)
       | Raise _ => (Ok FoodQuanty.Single,
                     emit w [{| fmt := "Unknown FoodQuanty (%s)"; arg := v |}])
       end) /\
  (forall v, FryerStatusMiot.data self !! "preheat_switch" = Some v ->
     FryerStatusMiot.preheat_switch self w =
       match enum_call PreheatSwitch.t v with
       | Ok m => (Ok (PreheatSwitch.value m), w)
       | Raise _ => (Ok (PInt (-1)),
                     emit w [{| fmt := "Unknown PreheatSwitch (%s)"; arg := v |}])
       end) /\
  (forall v, FryerStatusMiot.data self !! "turn_pot" = Some v ->
     FryerStatusMiot.turn_pot self w =
       match enum_call TurnPot.t v with
       | Ok m => (Ok m, w)
       | Raise _ => (Ok TurnPot.Unknown,
                     emit w [{| fmt := "Unknown TurnPot (%s)"; arg := v |}])
       end).
Proof.
  split; [| split; [| split; [| split]]]; intros v Hd.
  - run_getter Hd.
    destruct (enum_call_cases Status.t v) as [(m & -> & _) | ->]; done.
  - run_getter Hd.
    destruct (enum_call_cases DeviceFault.t v) as [(m & -> & _) | ->]; done.
  - run_getter Hd.
    destruct (enum_call_cases FoodQuanty.t v) as [(m & -> & _) | ->]; done.
  - run_getter Hd.
    destruct (enum_call_cases PreheatSwitch.t v) as [(m & -> & _) | ->]; done.
  - run_getter Hd.
    destruct (enum_call_cases TurnPot.t v) as [(m & -> & _) | ->]; done.
Qed.

Lemma enumerated_getters_never_raise_witness :
  FryerStatusMiot.status snapshot_all_99 w0
    = (Ok (PInt (-1)),
       emit w0 [{| fmt := "Unknown Status (%s)"; arg := PInt 99 |}]) /\
  FryerStatusMiot.device_fault snapshot_all_99 w0
    = (Ok (PInt (-1)),
       emit w0 [{| fmt := "Unknown Device Fault (%s)"; arg := PInt 99 |}]) /\
  FryerStatusMiot.food_quanty snapshot_all_99 w0
    = (Ok FoodQuanty.Single,
       emit w0 [{| fmt := "Unknown FoodQuanty (%s)"; arg := PInt 99 |}]) /\
  FryerStatusMiot.preheat_switch snapshot_all_99 w0
    = (Ok (PInt (-1)),
       emit w0 [{| fmt := "Unknown PreheatSwitch (%s)"; arg := PInt 99 |}]) /\
  FryerStatusMiot.turn_pot snapshot_all_99 w0
    = (Ok TurnPot.Unknown,
       emit w0 [{| fmt := "Unknown TurnPot (%s)"; arg := PInt 99 |}]).
Proof.
  destruct (enumerated_getters_never_raise snapshot_all_99 w0)
    as (Hs & Hd & Hf & Hp & Ht).
  split; [apply (Hs (PInt 99)); reflexivity |].
  split; [apply (Hd (PInt 99)); reflexivity |].
  split; [apply (Hf (PInt 99)); reflexivity |].
  split; [apply (Hp (PInt 99)); reflexivity |].
  apply (Ht (PInt 99)); reflexivity.
Defined.

(** X3. A property the dictionary does not hold makes its getter raise
    [KeyError] on that key, with nothing logged: the [except ValueError]
    clauses do not catch it. This holds for the powered-on predicate and the
    recipe name as well; only [mode], read with [get], returns [None]. *)
Theorem missing_key_raises_KeyError (self : FryerStatusMiot.t) (w : World) :
  (FryerStatusMiot.data self !! "status" = None ->
     FryerStatusMiot.is_on self w = (Raise (KeyError "status"), w) /\
     FryerStatusMiot.status self w = (Raise (KeyError "status"), w)) /\
  (FryerStatusMiot.data self !! "device_fault" = None ->
     FryerStatusMiot.device_fault self w = (Raise (KeyError "device_fault"), w)) /\
  (FryerStatusMiot.data self !! "target_time" = None ->
     FryerStatusMiot.target_time self w = (Raise (KeyError "target_time"), w)) /\
  (FryerStatusMiot.data self !! "target_temperature" = None ->
     FryerStatusMiot.target_temperature self w
       = (Raise (KeyError "target_temperature"), w)) /\
  (FryerStatusMiot.data self !! "left_time" = None ->
     FryerStatusMiot.left_time self w = (Raise (KeyError "left_time"), w)) /\
  (FryerStatusMiot.data self !! "recipe_id" = None ->
     FryerStatusMiot.recipe_id self w = (Raise (KeyError "recipe_id"), w) /\
     FryerStatusMiot.recipe_name self w = (Raise (KeyError "recipe_id"), w)) /\
  (FryerStatusMiot.data self !! "appoint_time" = None ->
     FryerStatusMiot.appoint_time self w = (Raise (KeyError "appoint_time"), w)) /\
  (FryerStatusMiot.data self !! "food_quanty" = None ->
     FryerStatusMiot.food_quanty self w = (Raise (KeyError "food_quanty"), w)) /\
  (FryerStatusMiot.data self !! "preheat_switch" = None ->
     FryerStatusMiot.preheat_switch self w
       = (Raise (KeyError "preheat_switch"), w)) /\
  (FryerStatusMiot.data self !! "appoint_time_left" = None ->
     FryerStatusMiot.appoint_time_left self w
       = (Raise (KeyError "appoint_time_left"), w)) /\
  (FryerStatusMiot.data self !! "turn_pot" = None ->
     FryerStatusMiot.turn_pot self w = (Raise (KeyError "turn_pot"), w)) /\
  (FryerStatusMiot.data self !! "mode" = None ->
     FryerStatusMiot.mode self w = (Ok PNone, w)).
Proof.
  repeat match goal with |- _ /\ _ => split end; intros Hd;
    try split; try (run_getter Hd; reflexivity).
  unfold FryerStatusMiot.mode. by rewrite Hd.
Qed.

Lemma missing_key_raises_KeyError_witness :
  FryerStatusMiot.is_on (snapshot_of []) w0 = (Raise (KeyError "status"), w0) /\
  FryerStatusMiot.turn_pot (snapshot_of []) w0
    = (Raise (KeyError "turn_pot"), w0) /\
  FryerStatusMiot.recipe_name (snapshot_of []) w0
    = (Raise (KeyError "recipe_id"), w0) /\
  FryerStatusMiot.mode (snapshot_of []) w0 = (Ok PNone, w0).
Proof.
  pose proof (missing_key_raises_KeyError (snapshot_of []) w0) as H.
  split; [apply H; reflexivity |].
  split; [apply H; reflexivity |].
  split; [apply H; reflexivity |].
  apply H; reflexivity.
Defined.

(** X4. A property whose read failed is held as [None]. The scalar getters
    hand that [None] back; the enumerated getters log it and fall back
    (the food quantity to [Single]); the powered-on predicate is true; the
    recipe name raises [ValueError], since [None] is no recipe token. *)
Theorem failed_property_reads (self : FryerStatusMiot.t) (w : World) :
  (FryerStatusMiot.data self !! "status" = Some PNone ->
     FryerStatusMiot.is_on self w = (Ok true, w) /\
     FryerStatusMiot.status self w =
       (Ok (PInt (-1)),
        emit w [{| fmt := "Unknown Status (%s)"; arg := PNone |}])) /\
  (FryerStatusMiot.data self !! "device_fault" = Some PNone ->
     FryerStatusMiot.device_fault self w =
       (Ok (PInt (-1)),
        emit w [{| fmt := "Unknown Device Fault (%s)"; arg := PNone |}])) /\
  (FryerStatusMiot.data self !! "food_quanty" = Some PNone ->
     FryerStatusMiot.food_quanty self w =
       (Ok FoodQuanty.Single,
        emit w [{| fmt := "Unknown FoodQuanty (%s)"; arg := PNone |}])) /\
  (FryerStatusMiot.data self !! "preheat_switch" = Some PNone ->
     FryerStatusMiot.preheat_switch self w =
       (Ok (PInt (-1)),
        emit w [{| fmt := "Unknown PreheatSwitch (%s)"; arg := PNone |}])) /\
  (FryerStatusMiot.data self !! "turn_pot" = Some PNone ->
     FryerStatusMiot.turn_pot self w =
       (Ok TurnPot.Unknown,
        emit w [{| fmt := "Unknown TurnPot (%s)"; arg := PNone |}])) /\
  (FryerStatusMiot.data self !! "target_time" = Some PNone ->
     FryerStatusMiot.target_time self w = (Ok PNone, w)) /\
  (FryerStatusMiot.data self !! "target_temperature" = Some PNone ->
     FryerStatusMiot.target_temperature self w = (Ok PNone, w)) /\
  (FryerStatusMiot.data self !! "left_time" = Some PNone ->
     FryerStatusMiot.left_time self w = (Ok PNone, w)) /\
  (FryerStatusMiot.data self !! "appoint_time" = Some PNone ->
     FryerStatusMiot.appoint_time self w = (Ok PNone, w)) /\
  (FryerStatusMiot.data self !! "appoint_time_left" = Some PNone ->
     FryerStatusMiot.appoint_time_left self w = (Ok PNone, w)) /\
  (FryerStatusMiot.data self !! "recipe_id" = Some PNone ->
     FryerStatusMiot.recipe_id self w = (Ok PNone, w) /\
     FryerStatusMiot.recipe_name self w
       = (Raise (ValueError PNone "RecipeId"), w)).
Proof.
  repeat match goal with |- _ /\ _ => split end; intros Hd;
    try split; run_getter Hd; reflexivity.
Qed.

Lemma failed_property_reads_witness :
  FryerStatusMiot.is_on snapshot_all_None w0 = (Ok true, w0) /\
  FryerStatusMiot.food_quanty snapshot_all_None w0 =
    (Ok FoodQuanty.Single,
     emit w0 [{| fmt := "Unknown FoodQuanty (%s)"; arg := PNone |}]) /\
  FryerStatusMiot.left_time snapshot_all_None w0 = (Ok PNone, w0) /\
  FryerStatusMiot.recipe_name snapshot_all_None w0
    = (Raise (ValueError PNone "RecipeId"), w0).
Proof.
  pose proof (failed_property_reads snapshot_all_None w0) as H.
  split; [apply H; reflexivity |].
  split; [apply H; reflexivity |].
  split; [apply H; reflexivity |].
  apply H; reflexivity.
Defined.

(** X5. Each getter reads its own key and nothing else: two dictionaries that
    agree on that key give the same result, whatever else they hold. In
    particular the recipe name follows [recipe_id] alone, and the stored
    [recipe_name] and [recipe_sync] properties are never read. *)
Theorem getters_read_their_own_key (d1 d2 : gmap string PyVal) (w : World) :
  let s1 := FryerStatusMiot.new d1 in
  let s2 := FryerStatusMiot.new d2 in
  (d1 !! "status" = d2 !! "status" ->
     FryerStatusMiot.is_on s1 w = FryerStatusMiot.is_on s2 w /\
     FryerStatusMiot.status s1 w = FryerStatusMiot.status s2 w) /\
  (d1 !! "mode" = d2 !! "mode" ->
     FryerStatusMiot.mode s1 w = FryerStatusMiot.mode s2 w) /\
  (d1 !! "device_fault" = d2 !! "device_fault" ->
     FryerStatusMiot.device_fault s1 w = FryerStatusMiot.device_fault s2 w) /\
  (d1 !! "target_time" = d2 !! "target_time" ->
     FryerStatusMiot.target_time s1 w = FryerStatusMiot.target_time s2 w) /\
  (d1 !! "target_temperature" = d2 !! "target_temperature" ->
     FryerStatusMiot.target_temperature s1 w
       = FryerStatusMiot.target_temperature s2 w) /\
  (d1 !! "left_time" = d2 !! "left_time" ->
     FryerStatusMiot.left_time s1 w = FryerStatusMiot.left_time s2 w) /\
  (d1 !! "recipe_id" = d2 !! "recipe_id" ->
     FryerStatusMiot.recipe_id s1 w = FryerStatusMiot.recipe_id s2 w /\
     FryerStatusMiot.recipe_name s1 w = FryerStatusMiot.recipe_name s2 w) /\
  (d1 !! "appoint_time" = d2 !! "appoint_time" ->
     FryerStatusMiot.appoint_time s1 w = FryerStatusMiot.appoint_time s2 w) /\
  (d1 !! "food_quanty" = d2 !! "food_quanty" ->
     FryerStatusMiot.food_quanty s1 w = FryerStatusMiot.food_quanty s2 w) /\
  (d1 !! "preheat_switch" = d2 !! "preheat_switch" ->
     FryerStatusMiot.preheat_switch s1 w
       = FryerStatusMiot.preheat_switch s2 w) /\
  (d1 !! "appoint_time_left" = d2 !! "appoint_time_left" ->
     FryerStatusMiot.appoint_time_left s1 w
       = FryerStatusMiot.appoint_time_left s2 w) /\
  (d1 !! "turn_pot" = d2 !! "turn_pot" ->
     FryerStatusMiot.turn_pot s1 w = FryerStatusMiot.turn_pot s2 w).
Proof.
  intros s1 s2. subst s1 s2.
  repeat match goal with |- _ /\ _ => split end; intros Hd;
    try split; unfold FryerStatusMiot.mode; run_getter Hd;
    cbn [FryerStatusMiot.data]; rewrite Hd; reflexivity.
Qed.

Lemma getters_read_their_own_key_witness :
  FryerStatusMiot.recipe_name
    (snapshot_of [("recipe_id", PStr "M4"); ("recipe_name", PStr "x")]) w0
  = FryerStatusMiot.recipe_name (snapshot_of [("recipe_id", PStr "M4")]) w0 /\
  FryerStatusMiot.status
    (snapshot_of [("status", PInt 4); ("device_fault", PNone)]) w0
  = FryerStatusMiot.status
      (snapshot_of [("status", PInt 4); ("device_fault", PInt 2)]) w0.
Proof.
  split.
  - apply (getters_read_their_own_key
             (list_to_map [("recipe_id", PStr "M4"); ("recipe_name", PStr "x")])
             (list_to_map [("recipe_id", PStr "M4")]) w0).
    reflexivity.
  - apply (getters_read_their_own_key
             (list_to_map [("status", PInt 4); ("device_fault", PNone)])
             (list_to_map [("status", PInt 4); ("device_fault", PInt 2)]) w0).
    reflexivity.
Defined.

(** X6. How the recipe name getter ends, in full: [KeyError] when the snapshot
    holds no [recipe_id], the [RecipeId] lookup's [ValueError] when the
    value is no preset's token, and the [RecipeName] lookup's [ValueError]
    on the member's name when it is. It logs nothing and returns in no
    case. *)
Theorem recipe_name_outcome (self : FryerStatusMiot.t) (w : World) :
  FryerStatusMiot.recipe_name self w =
    match FryerStatusMiot.data self !! "recipe_id" with
    | None => (Raise (KeyError "recipe_id"), w)
    | Some v =>
        match enum_call RecipeId.t v with
        | Ok m => (Raise (ValueError (PStr (name_of m)) "RecipeName"), w)
        | Raise _ => (Raise (ValueError v "RecipeId"), w)
        end
    end.
Proof.
  unfold FryerStatusMiot.recipe_name, bind, FryerStatusMiot.getitem, lift.
  destruct (FryerStatusMiot.data self !! "recipe_id") as [v |]; [| reflexivity].
  destruct (enum_call_cases RecipeId.t v) as [(m & -> & _) | ->];
    [| reflexivity].
  by destruct m as [[]].
Qed.

(** ** Further properties of [status] *)

Lemma came_back_None (name : string) (props : list RawProp) :
  came_back name props = None <-> ~ In name (map did props).
Proof.
  induction props as [| prop rest IH]; simpl; [tauto |].
  destruct (came_back name rest) as [q |].
  - split; [discriminate |]. intros H. exfalso. apply H. right.
    destruct (in_dec String.string_dec name (map did rest)) as [Hin | Hn]; [done |].
    apply IH in Hn. discriminate Hn.
  - destruct (String.eqb_spec (did prop) name) as [-> | Hne].
    + split; [discriminate |]. intros H. destruct H. by left.
    + split; [| done]. intros _ [H | H]; [done |]. by apply IH.
Qed.

Lemma came_back_Some (name : string) (props : list RawProp) (q : RawProp) :
  came_back name props = Some q -> In q props /\ did q = name.
Proof.
  induction props as [| prop rest IH]; simpl; [discriminate |].
  destruct (came_back name rest) as [q' |].
  - intros [= ->]. destruct IH as [Hin Hd]; [done |]. split; [by right | done].
  - destruct (String.eqb_spec (did prop) name) as [Hd | Hne]; [| discriminate].
    intros [= ->]. split; [by left | done].
Qed.

Lemma came_back_unique (name : string) (props : list RawProp) (q : RawProp) :
  NoDup (map did props) -> In q props -> did q = name ->
  came_back name props = Some q.
Proof.
  induction props as [| prop rest IH]; simpl; [done |].
  intros Hnd [-> | Hin] Hd.
  - apply NoDup_cons in Hnd as [Hnotin _].
    assert (Hn : came_back name rest = None).
    { apply came_back_None. rewrite <- Hd. intros Hin. apply Hnotin.
      by apply list_elem_of_In. }
    rewrite Hn. destruct (String.eqb_spec (did q) name); done.
  - apply NoDup_cons in Hnd as [_ Hnd]. by rewrite (IH Hnd Hin Hd).
Qed.

Lemma status_data_Ok_complete (props : list RawProp) :
  forall acc d, FryerMiot.status_data props acc = Ok d -> complete props.
Proof.
  induction props as [| prop rest IH]; intros acc d H; [constructor |].
  simpl in H. unfold FryerMiot.stored_value in H.
  constructor.
  - intros Hc Hv. rewrite Hc, Hv in H. discriminate H.
  - destruct (Z.eqb (code prop) 0); [destruct (value prop) |];
      first [discriminate H | by eapply IH].
Qed.

Lemma status_data_Raise (props : list RawProp) :
  forall acc e, FryerMiot.status_data props acc = Raise e ->
                e = KeyError "value".
Proof.
  induction props as [| prop rest IH]; intros acc e H; [discriminate H |].
  simpl in H. unfold FryerMiot.stored_value in H.
  destruct (Z.eqb (code prop) 0); [destruct (value prop) |];
    first [by eapply IH | by injection H].
Qed.

(** X7. What [status] does, in full. It sends one batched read, whatever comes
    of it. A transport error is passed on as it is. A batch in which every
    record that reports success carries its value gives a snapshot; any
    other batch raises [KeyError] on [value]. Nothing is logged. *)
Theorem status_outcome
    (read_reply : list request -> result (list RawProp)) (w : World) :
  snd (FryerMiot.status read_reply w) = sent w GetProperties /\
  (forall e, read_reply (wire w) = Raise e ->
     fst (FryerMiot.status read_reply w) = Raise e) /\
  (forall props, read_reply (wire w) = Ok props ->
     (complete props ->
        exists d, FryerMiot.status_data props ∅ = Ok d /\
                  fst (FryerMiot.status read_reply w)
                    = Ok (FryerStatusMiot.new d)) /\
     (~ complete props ->
        fst (FryerMiot.status read_reply w) = Raise (KeyError "value"))).
Proof.
  unfold FryerMiot.status, FryerMiot.get_properties_for_mapping, bind, lift.
  split; [| split].
  - destruct (read_reply (wire w)) as [props | e]; [| reflexivity].
    by destruct (FryerMiot.status_data props ∅).
  - by intros e ->.
  - intros props ->. split.
    + intros Hc. destruct (status_data_complete props Hc ∅) as [d Hd].
      exists d. by rewrite Hd.
    + intros Hc.
      destruct (FryerMiot.status_data props ∅) as [d | e] eqn:Hd.
      * destruct Hc. by eapply status_data_Ok_complete.
      * by rewrite (status_data_Raise _ _ _ Hd).
Qed.

Lemma status_outcome_witness :
  (exists d, FryerMiot.status_data batch_fault_failed ∅ = Ok d /\
             fst (FryerMiot.status (fun _ => Ok batch_fault_failed) w0)
               = Ok (FryerStatusMiot.new d)) /\
  fst (FryerMiot.status (fun _ => Ok batch_value_missing) w0)
    = Raise (KeyError "value") /\
  fst (FryerMiot.status (fun _ => Raise (DeviceException "timeout")) w0)
    = Raise (DeviceException "timeout").
Proof.
  split; [| split].
  - destruct (status_outcome (fun _ => Ok batch_fault_failed) w0)
      as (_ & _ & H).
    destruct (H batch_fault_failed eq_refl) as [Hc _]. apply Hc.
    repeat constructor; simpl; intros; discriminate.
  - destruct (status_outcome (fun _ => Ok batch_value_missing) w0)
      as (_ & _ & H).
    destruct (H batch_value_missing eq_refl) as [_ Hn]. apply Hn.
    intros Hc. apply Forall_cons_1 in Hc as [_ Hc].
    apply Forall_cons_1 in Hc as [Hc _]. by apply Hc.
  - destruct (status_outcome (fun _ => Raise (DeviceException "timeout")) w0)
      as (_ & H & _).
    by apply H.
Defined.

(** X8. The snapshot holds, for every name, what the last record answering for
    that name says: its value when the code is 0, [None] otherwise; a name
    no record answers for is not a key. So a later record for the same
    property replaces an earlier one. *)
Theorem status_holds_last_record
    (read_reply : list request -> result (list RawProp))
    (w w' : World) (props : list RawProp) (st : FryerStatusMiot.t) :
  read_reply (wire w) = Ok props ->
  FryerMiot.status read_reply w = (Ok st, w') ->
  forall name,
    FryerStatusMiot.data st !! name =
      match came_back name props with
      | None => None
      | Some q => if Z.eqb (code q) 0 then value q else Some PNone
      end.
Proof.
  intros Hr Hst name.
  unfold FryerMiot.status, FryerMiot.get_properties_for_mapping, bind, lift
    in Hst.
  rewrite Hr in Hst.
  destruct (FryerMiot.status_data props ∅) as [d | e] eqn:Hd;
    [| discriminate Hst].
  injection Hst as <- _. cbn [FryerStatusMiot.data].
  rewrite (status_data_lookup _ _ _ Hd).
  destruct (came_back name props) as [q |] eqn:Hq; [| apply lookup_empty].
  apply came_back_Some in Hq as [Hin _].
  pose proof (status_data_Ok_complete _ _ _ Hd) as Hc.
  unfold complete in Hc. rewrite Forall_forall in Hc.
  apply list_elem_of_In in Hin.
  specialize (Hc q Hin). unfold FryerMiot.stored_value.
  destruct (Z.eqb_spec (code q) 0) as [H0 | H0]; [| reflexivity].
  destruct (value q); [reflexivity |]. by destruct (Hc H0).
Qed.

Lemma status_holds_last_record_witness :
  exists st,
    FryerMiot.status (fun _ => Ok batch_fault_failed) w0
      = (Ok st, sent w0 GetProperties) /\
    FryerStatusMiot.data st !! "device_fault" = Some PNone /\
    FryerStatusMiot.data st !! "recipe_id" = Some (PStr "M1") /\
    FryerStatusMiot.data st !! "left_time" = None.
Proof.
  eexists. split; [reflexivity |].
  pose proof (status_holds_last_record (fun _ => Ok batch_fault_failed) w0
                (sent w0 GetProperties) batch_fault_failed _
                eq_refl eq_refl) as H.
  split; [apply (H "device_fault") |].
  split; [apply (H "recipe_id") | apply (H "left_time")].
Defined.

Lemma came_back_Permutation (name : string) (props props' : list RawProp) :
  NoDup (map did props) -> props ≡ₚ props' ->
  came_back name props = came_back name props'.
Proof.
  intros Hnd Hp.
  assert (Hnd' : NoDup (map did props')).
  { by rewrite <- Hp. }
  destruct (came_back name props') as [q' |] eqn:Hq'.
  - apply came_back_Some in Hq' as [Hin Hd].
    apply came_back_unique; [done | | done].
    eapply Permutation_in; [symmetry; exact Hp | exact Hin].
  - destruct (came_back name props) as [q |] eqn:Hq; [| done].
    apply came_back_Some in Hq as [Hin Hd].
    rewrite <- Hq'. symmetry. apply came_back_unique; [done | | done].
    eapply Permutation_in; [exact Hp | exact Hin].
Qed.

(** X9. Records are matched by name, not by position: when no property is
    answered twice, any reordering of the batch builds the same dictionary
    (or fails alike). *)
Theorem status_data_order_irrelevant (props props' : list RawProp) :
  NoDup (map did props) -> props ≡ₚ props' ->
  FryerMiot.status_data props ∅ = FryerMiot.status_data props' ∅.
Proof.
  intros Hnd Hp.
  destruct (FryerMiot.status_data props ∅) as [d | e] eqn:Hd;
    destruct (FryerMiot.status_data props' ∅) as [d' | e'] eqn:Hd'.
  - f_equal. apply map_eq. intros k.
    rewrite (status_data_lookup _ _ _ Hd), (status_data_lookup _ _ _ Hd').
    by rewrite (came_back_Permutation k props props').
  - pose proof (status_data_Ok_complete _ _ _ Hd) as Hc.
    assert (Hc' : complete props') by (eapply Permutation_Forall; eauto).
    destruct (status_data_complete props' Hc' ∅) as [d' Hd''].
    rewrite Hd'' in Hd'. discriminate Hd'.
  - pose proof (status_data_Ok_complete _ _ _ Hd') as Hc'.
    assert (Hc : complete props).
    { eapply Permutation_Forall; [symmetry; exact Hp | exact Hc']. }
    destruct (status_data_complete props Hc ∅) as [d0 Hd0].
    rewrite Hd0 in Hd. discriminate Hd.
  - by rewrite (status_data_Raise _ _ _ Hd), (status_data_Raise _ _ _ Hd').
Qed.

Lemma status_data_order_irrelevant_witness :
  FryerMiot.status_data batch_fault_failed ∅
  = FryerMiot.status_data batch_fault_failed_shuffled ∅.
Proof.
  apply status_data_order_irrelevant.
  - unfold batch_fault_failed. simpl.
    repeat (apply NoDup_cons; split;
            [rewrite list_elem_of_In; simpl; intuition discriminate |]).
    apply NoDup_nil_2.
  - unfold batch_fault_failed, batch_fault_failed_shuffled.
    set (a := {| did := "status" |}). set (b := {| did := "device_fault" |}).
    set (c := {| did := "target_time" |}). set (e := {| did := "recipe_id" |}).
    change ([a; b; c] ++ [e] ≡ₚ [e] ++ [a; c; b]).
    rewrite Permutation_app_comm. apply Permutation_app; [done |].
    apply perm_skip, perm_swap.
Defined.

(** X10. The keys of the snapshot are exactly the names the batch answers for:
    a failed read still leaves its key (holding [None]), a property the
    device left out has none. *)
Theorem status_data_keys (props : list RawProp) (d : gmap string PyVal) :
  FryerMiot.status_data props ∅ = Ok d ->
  dom d = list_to_set (map did props).
Proof.
  intros Hd. apply set_eq. intros k.
  rewrite elem_of_dom, elem_of_list_to_set, list_elem_of_In.
  rewrite (status_data_lookup _ _ _ Hd).
  destruct (came_back k props) as [q |] eqn:Hq.
  - apply came_back_Some in Hq as [Hin Hk].
    pose proof (status_data_Ok_complete _ _ _ Hd) as Hc.
    unfold complete in Hc. rewrite Forall_forall in Hc.
    apply list_elem_of_In in Hin. specialize (Hc q Hin).
    split.
    + intros _. rewrite <- Hk. apply in_map. by apply list_elem_of_In.
    + intros _. unfold FryerMiot.stored_value.
      destruct (Z.eqb_spec (code q) 0) as [H0 | H0]; [| by eexists].
      destruct (value q); [by eexists | by destruct (Hc H0)].
  - apply came_back_None in Hq. rewrite lookup_empty. split.
    + by intros [? ?].
    + intros Hin. by destruct Hq.
Qed.

Lemma status_data_keys_witness :
  exists d, FryerMiot.status_data batch_fault_failed ∅ = Ok d /\
            dom d = {["status"; "device_fault"; "target_time"; "recipe_id"]}.
Proof.
  eexists. split; [reflexivity |].
  rewrite (status_data_keys batch_fault_failed _ eq_refl).
  simpl. set_solver.
Defined.

(** X11. No property of the mapping table is called [mode]: in a snapshot built
    from a batch that answers only for properties of the table, the [mode]
    getter returns [None]. *)
Theorem mode_is_None_for_mapped_batches
    (props : list RawProp) (d : gmap string PyVal) (w : World) :
  mapped_batch props ->
  FryerMiot.status_data props ∅ = Ok d ->
  FryerStatusMiot.mode (FryerStatusMiot.new d) w = (Ok PNone, w).
Proof.
  intros Hm Hd. unfold FryerStatusMiot.mode. cbn [FryerStatusMiot.data].
  rewrite (status_data_lookup _ _ _ Hd).
  destruct (came_back "mode" props) as [q |] eqn:Hq; [| by rewrite lookup_empty].
  apply came_back_Some in Hq as [Hin Hk].
  unfold mapped_batch in Hm. rewrite Forall_forall in Hm.
  apply list_elem_of_In in Hin. destruct (Hm q Hin) as (s & p & Hl).
  rewrite Hk in Hl. discriminate Hl.
Qed.

Lemma mode_is_None_for_mapped_batches_witness :
  exists d, FryerMiot.status_data batch_fault_failed ∅ = Ok d /\
            FryerStatusMiot.mode (FryerStatusMiot.new d) w0 = (Ok PNone, w0).
Proof.
  eexists. split; [reflexivity |].
  apply (mode_is_None_for_mapped_batches batch_fault_failed); [| reflexivity].
  repeat constructor; by eexists _, _.
Defined.

(** ** The mapping table and the commands *)

Lemma mapping_lookup_In (n : string) (a : address) :
  mapping !! n = Some a -> (n, a) ∈ MIOT_MAPPING.
Proof. unfold mapping. apply elem_of_list_to_map_2. Qed.

(** X12. The mapping table binds every name once, and no two names to the same
    address: a property or an action address identifies its name. *)
Theorem mapping_addresses_identify_names :
  NoDup (MIOT_MAPPING.*1) /\
  forall n1 n2 a,
    mapping !! n1 = Some a -> mapping !! n2 = Some a -> n1 = n2.
Proof.
  assert (Hn : NoDup (MIOT_MAPPING.*1)) by compute_done.
  assert (Ha : NoDup (MIOT_MAPPING.*2)) by compute_done.
  split; [exact Hn |].
  intros n1 n2 a H1 H2.
  apply mapping_lookup_In, list_elem_of_lookup in H1 as [i Hi].
  apply mapping_lookup_In, list_elem_of_lookup in H2 as [j Hj].
  assert (Hi' : MIOT_MAPPING.*2 !! i = Some a) by by rewrite list_lookup_fmap, Hi.
  assert (Hj' : MIOT_MAPPING.*2 !! j = Some a) by by rewrite list_lookup_fmap, Hj.
  pose proof (NoDup_lookup _ _ _ _ Ha Hi' Hj'). subst j.
  rewrite Hi in Hj. by injection Hj.
Qed.

Lemma mapping_addresses_identify_names_witness :
  mapping !! "status" = Some (property 2 1) /\
  mapping !! "start_cook" = Some (action 2 1) /\
  forall n, mapping !! n = Some (property 3 6) -> n = "food_quanty".
Proof.
  split; [reflexivity |]. split; [reflexivity |].
  intros n Hn.
  apply (proj2 mapping_addresses_identify_names n "food_quanty" (property 3 6));
    [exact Hn | reflexivity].
Defined.

Section MoreCommands.

Variable Reply : Type.
Variable send_reply : list request -> request -> result Reply.

(** X13. Every command sends at most one request, and that request names an
    entry of the mapping table of the right kind: the setters write the
    property of their own name or raise before sending, the argument-free
    actions and the recipe id setter always send, and the custom cook
    invokes its action with a string or raises before sending. In every
    case the device's answer is returned as it is and nothing is logged. *)
Theorem commands_send_one_mapped_request (w : World) :
  (forall x, refuses_or_submits send_reply
               (FryerMiot.appoint_time Reply send_reply x) w
               (SetProperty "appoint_time" (PInt x))) /\
  (forall x, refuses_or_submits send_reply
               (FryerMiot.food_quanty Reply send_reply x) w
               (SetProperty "food_quanty" (PInt x))) /\
  (forall x, refuses_or_submits send_reply
               (FryerMiot.target_time Reply send_reply x) w
               (SetProperty "target_time" (PInt x))) /\
  (forall x, refuses_or_submits send_reply
               (FryerMiot.target_temperature Reply send_reply x) w
               (SetProperty "target_temperature" (PInt x))) /\
  (forall mode, exists s,
      refuses_or_submits send_reply
        (FryerMiot.start_custom_cook Reply send_reply mode) w
        (CallAction "start_custom_cook" (Some (PStr s)))) /\
  (forall s, FryerMiot.recipe_id Reply send_reply s w
             = submitted send_reply w (SetProperty "recipe_id" (PStr s))) /\
  FryerMiot.start_cook Reply send_reply w
    = submitted send_reply w (CallAction "start_cook" None) /\
  FryerMiot.cancel_cooking Reply send_reply w
    = submitted send_reply w (CallAction "cancel_cooking" None) /\
  FryerMiot.pause Reply send_reply w
    = submitted send_reply w (CallAction "pause" None) /\
  FryerMiot.resume_cooking Reply send_reply w
    = submitted send_reply w (CallAction "resume_cooking" None) /\
  (forall n v,
      In n ["appoint_time"; "food_quanty"; "target_time";
            "target_temperature"; "recipe_id"] ->
      well_addressed (SetProperty n v)) /\
  (forall n params,
      In n ["start_custom_cook"; "start_cook"; "cancel_cooking"; "pause";
            "resume_cooking"] ->
      well_addressed (CallAction n params)).
Proof.
  split; [| split; [| split; [| split; [| split]]]].
  1-4: intros x; unfold refuses_or_submits, FryerMiot.appoint_time,
         FryerMiot.food_quanty, FryerMiot.target_time,
         FryerMiot.target_temperature;
       match goal with
       | |- context [if ?c then _ else _] => destruct c
       end; [left; by eexists | by right].
  - intros mode.
    unfold refuses_or_submits, FryerMiot.start_custom_cook, bind, lift.
    destruct (enum_call RecipeId.t mode) as [m | e];
      [| exists ""; left; by eexists].
    destruct (enum_getitem RecipeToCommand.t (name_of m)) as [p | e];
      [| exists ""; left; by eexists].
    eexists. right. reflexivity.
  - repeat split.
    + intros n v Hin. simpl in Hin.
      repeat (destruct Hin as [<- | Hin]; [by eexists _, _ |]).
      destruct Hin.
    + intros n v Hin. simpl in Hin.
      repeat (destruct Hin as [<- | Hin]; [by eexists _, _ |]).
      destruct Hin.
Qed.

End MoreCommands.

Lemma commands_send_one_mapped_request_witness :
  well_addressed (SetProperty "target_time" (PInt 15)) /\
  well_addressed (CallAction "start_custom_cook" (Some (PStr "M1,,15,200,0,3,0"))) /\
  FryerMiot.pause unit ack w0 = submitted ack w0 (CallAction "pause" None).
Proof.
  pose proof (commands_send_one_mapped_request unit ack w0)
    as (_ & _ & _ & _ & _ & _ & _ & _ & Hp & _ & Hs & Ha).
  split; [apply Hs; simpl; tauto |].
  split; [apply Ha; simpl; tauto | exact Hp].
Defined.

(** ** The recipe tables *)

Section Recipes.

Variable Reply : Type.
Variable send_reply : list request -> request -> result Reply.

(** X14. The three recipe tables fit together for [start_custom_cook]: a token
    of [RecipeId] always finds its command (the subscript never raises
    [KeyError]), the command has seven fields, begins with the very token
    that was passed and has an empty name, and that is what is sent; and
    different recipes send different strings. *)
Theorem start_custom_cook_sends_its_own_token (m : RecipeId.t) (w : World) :
  exists (token : string) (t c a q ph : Z),
    value_of m = PStr token /\
    enum_getitem RecipeToCommand.t (name_of m)
      = Ok (RecipeToCommand.member (RecipeId.recipe m)) /\
    RecipeToCommand.value (RecipeToCommand.member (RecipeId.recipe m))
      = [PStr token; PStr ""; PInt t; PInt c; PInt a; PInt q; PInt ph] /\
    FryerMiot.start_custom_cook Reply send_reply (value_of m) w
      = submitted send_reply w
          (CallAction "start_custom_cook"
             (Some (PStr (py_join ","
                            [token; ""; py_str (PInt t); py_str (PInt c);
                             py_str (PInt a); py_str (PInt q);
                             py_str (PInt ph)])))) /\
    forall m' : RecipeId.t,
      py_join "," (map py_str
        (RecipeToCommand.value (RecipeToCommand.member (RecipeId.recipe m'))))
      = py_join "," (map py_str
        (RecipeToCommand.value (RecipeToCommand.member (RecipeId.recipe m)))) ->
      m' = m.
Proof.
  destruct m as [[]]; eexists _, _, _, _, _, _;
    (split; [reflexivity |]); (split; [reflexivity |]);
    (split; [reflexivity |]); (split; [reflexivity |]);
    intros [[]]; intros H; first [reflexivity | discriminate H].
Qed.

(** X15. Every preset but Manual carries a target time, a target temperature, an
    appoint time and a food quantity that the setters of these properties
    accept; Manual carries target time 0 and temperature 0, which the
    setters refuse. The custom cook sends either unchecked. *)
Theorem preset_numbers_against_setters (m : RecipeToCommand.t) (w : World) :
  exists (token name : PyVal) (t c a q ph : Z),
    RecipeToCommand.value m = [token; name; PInt t; PInt c; PInt a; PInt q; PInt ph] /\
    FryerMiot.appoint_time Reply send_reply a w
      = submitted send_reply w (SetProperty "appoint_time" (PInt a)) /\
    FryerMiot.food_quanty Reply send_reply q w
      = submitted send_reply w (SetProperty "food_quanty" (PInt q)) /\
    (RecipeToCommand.recipe m <> Manual ->
       FryerMiot.target_time Reply send_reply t w
         = submitted send_reply w (SetProperty "target_time" (PInt t)) /\
       FryerMiot.target_temperature Reply send_reply c w
         = submitted send_reply w (SetProperty "target_temperature" (PInt c))) /\
    (RecipeToCommand.recipe m = Manual ->
       is_ok (fst (FryerMiot.target_time Reply send_reply t w)) = false /\
       is_ok (fst (FryerMiot.target_temperature Reply send_reply c w)) = false).
Proof.
  destruct m as [[]]; eexists _, _, _, _, _, _, _;
    (split; [reflexivity |]); (split; [reflexivity |]);
    (split; [reflexivity |]); split; intros H;
    first [done | split; reflexivity].
Qed.

(** X16. The food quantity setter and getter disagree on 5: the setter accepts
    0 to 5, but no member of [FoodQuanty] carries 5, so a device reporting
    the 5 that was written reads back as [Single] with a diagnostic, while
    0 to 4 read back as the member carrying the value, silently. *)
Theorem food_quanty_written_then_read
    (x : Z) (self : FryerStatusMiot.t) (w wr : World) :
  0 <= x <= 5 ->
  FryerStatusMiot.data self !! "food_quanty" = Some (PInt x) ->
  FryerMiot.food_quanty Reply send_reply x w
    = submitted send_reply w (SetProperty "food_quanty" (PInt x)) /\
  (x <= 4 ->
     exists m, FoodQuanty.value m = PInt x /\
               FryerStatusMiot.food_quanty self wr = (Ok m, wr)) /\
  (x = 5 ->
     FryerStatusMiot.food_quanty self wr =
       (Ok FoodQuanty.Single,
        emit wr [{| fmt := "Unknown FoodQuanty (%s)"; arg := PInt 5 |}])).
Proof.
  intros Hx Hd.
  assert (Hin : In x [0; 1; 2; 3; 4; 5]).
  { replace x with (Z.of_nat (Z.to_nat x)) by lia.
    assert (Hn : (Z.to_nat x < 6)%nat) by lia.
    revert Hn. generalize (Z.to_nat x). intros n Hn.
    do 6 (destruct n as [| n]; [simpl; tauto |]). lia. }
  simpl in Hin.
  repeat (destruct Hin as [<- | Hin];
          [split; [reflexivity |]; split; intros Hc; try lia;
           first [ eexists; split; [| run_getter Hd; reflexivity]; reflexivity
                 | run_getter Hd; reflexivity ] |]).
  destruct Hin.
Qed.

End Recipes.

Lemma preset_numbers_against_setters_witness :
  FryerMiot.target_time unit ack 480 w0
    = submitted ack w0 (SetProperty "target_time" (PInt 480)) /\
  is_ok (fst (FryerMiot.target_time unit ack 0 w0)) = false.
Proof.
  split.
  - destruct (preset_numbers_against_setters unit ack
                (RecipeToCommand.member Yogurt) w0)
      as (tk & nm & t & c & a & q & ph & Hv & _ & _ & Hok & _).
    injection Hv as _ _ <- _ _ _ _. by apply Hok.
  - destruct (preset_numbers_against_setters unit ack
                (RecipeToCommand.member Manual) w0)
      as (tk & nm & t & c & a & q & ph & Hv & _ & _ & _ & Hno).
    injection Hv as _ _ <- _ _ _ _. by apply Hno.
Defined.

Lemma food_quanty_written_then_read_witness :
  FryerMiot.food_quanty unit ack 5 w0
    = submitted ack w0 (SetProperty "food_quanty" (PInt 5)) /\
  FryerStatusMiot.food_quanty (snapshot_of [("food_quanty", PInt 5)]) w0 =
    (Ok FoodQuanty.Single,
     emit w0 [{| fmt := "Unknown FoodQuanty (%s)"; arg := PInt 5 |}]).
Proof.
  destruct (food_quanty_written_then_read unit ack 5
              (snapshot_of [("food_quanty", PInt 5)]) w0 w0)
    as (Hw & _ & Hr); [lia | reflexivity |].
  split; [exact Hw | by apply Hr].
Defined.

Lemma start_custom_cook_sends_its_own_token_witness :
  FryerMiot.start_custom_cook unit ack (PStr "M6") w0
    = submitted ack w0
        (CallAction "start_custom_cook" (Some (PStr "M6,,240,40,0,0,0"))).
Proof.
  destruct (start_custom_cook_sends_its_own_token unit ack
              (RecipeId.member DriedFruit) w0)
    as (tk & t & c & a & q & ph & Htk & _ & Hv & Hs & _).
  injection Htk as <-. injection Hv as <- <- <- <- <-. exact Hs.
Defined.

(** ** Choosing the client class *)

Section ModelLists.

Variables MODELS_CARELI MODELS_SILEN MODELS_MIOT MODELS_ALL_DEVICES
  : list string.

(** X17. [determine_fryer_class] never fails and never refuses a model. The
    lists are tried in the order Careli, Silen, MIoT: the Silen class is
    chosen exactly for a Silen model that is not also a Careli one, the
    MIoT class exactly for a MIoT model that is in neither of the other
    two, and every other model, known or not, gets the base class. The one
    thing an unknown model changes is the error record it leaves; nothing
    is sent. *)
Theorem determine_fryer_class_precedence (model : string) (w : World) :
  exists cls,
    fst (determine_fryer_class MODELS_CARELI MODELS_SILEN MODELS_MIOT
           MODELS_ALL_DEVICES model w) = Ok cls /\
    (cls = Class_FryerMiotSCK <->
       str_in model MODELS_CARELI = false /\
       str_in model MODELS_SILEN = true) /\
    (cls = Class_FryerMiotMi <->
       str_in model MODELS_CARELI = false /\
       str_in model MODELS_SILEN = false /\
       str_in model MODELS_MIOT = true) /\
    snd (determine_fryer_class MODELS_CARELI MODELS_SILEN MODELS_MIOT
           MODELS_ALL_DEVICES model w) =
      (if str_in model MODELS_CARELI || str_in model MODELS_SILEN
          || str_in model MODELS_MIOT || str_in model MODELS_ALL_DEVICES
       then w
       else emit w [{| fmt := "Unknown model: %s"; arg := PStr model |}]).
Proof.
  unfold determine_fryer_class.
  destruct (str_in model MODELS_CARELI), (str_in model MODELS_SILEN),
    (str_in model MODELS_MIOT), (str_in model MODELS_ALL_DEVICES);
    eexists; (split; [reflexivity |]); simpl;
    repeat split; intros; try discriminate; intuition discriminate.
Qed.

End ModelLists.

(** ** The range of the numeric enumerated getters *)

(** X18. Whatever a present property holds, the getters that return a member's
    value return an integer of the enumeration: the status one of -1..14,
    the device fault one of -1..3, the preheat switch one of -1..2. *)
Theorem enumerated_values_in_range (self : FryerStatusMiot.t) (w : World) :
  (forall v, FryerStatusMiot.data self !! "status" = Some v ->
     exists z, fst (FryerStatusMiot.status self w) = Ok (PInt z) /\
               -1 <= z <= 14) /\
  (forall v, FryerStatusMiot.data self !! "device_fault" = Some v ->
     exists z, fst (FryerStatusMiot.device_fault self w) = Ok (PInt z) /\
               -1 <= z <= 3) /\
  (forall v, FryerStatusMiot.data self !! "preheat_switch" = Some v ->
     exists z, fst (FryerStatusMiot.preheat_switch self w) = Ok (PInt z) /\
               -1 <= z <= 2).
Proof.
  split; [| split]; intros v Hd; run_getter Hd.
  - destruct (enum_call_cases Status.t v) as [(m & -> & _) | ->].
    + destruct m; eexists; (split; [reflexivity | lia]).
    + eexists; split; [reflexivity | lia].
  - destruct (enum_call_cases DeviceFault.t v) as [(m & -> & _) | ->].
    + destruct m; eexists; (split; [reflexivity | lia]).
    + eexists; split; [reflexivity | lia].
  - destruct (enum_call_cases PreheatSwitch.t v) as [(m & -> & _) | ->].
    + destruct m; eexists; (split; [reflexivity | lia]).
    + eexists; split; [reflexivity | lia].
Qed.

Lemma enumerated_values_in_range_witness :
  exists z, fst (FryerStatusMiot.status snapshot_all_99 w0) = Ok (PInt z) /\
            -1 <= z <= 14.
Proof.
  apply (proj1 (enumerated_values_in_range snapshot_all_99 w0) (PInt 99)).
  reflexivity.
Defined.
